(** * DLNA DMR profile ([async_upnp_client/profiles/dlna.py])

    A shallow embedding of the renderer profile: the LastChange decoder,
    the state readers (transport state, play mode, transport-action
    permission, levels), the transport commands and the play-media
    metadata builder, followed by the properties the specification states
    about them.

    Conventions.
    - Python [str] is [string]; the string methods used by the profile
      ([strip], [upper], [lower], [split], [find], [startswith]) are written
      out below on the ASCII range, which is all the protocol constants use.
    - Python [dict] is stdpp's [gmap]; [None] is [option]'s [None].
    - Collaborators that live outside the file (the SAX parser, the HTTP
      requester, [guess_type], the DIDL-Lite codec, [str_to_time]) are
      taken as arguments, so every property holds whatever they do.
    - Command methods run in a small monad that records log lines and
      action invocations and may raise. *)

From Stdlib Require Import ZArith QArith Ascii String List Bool Lia Lqa.
From stdpp Require Import gmap strings list fin_maps.

Local Open Scope string_scope.

(** ** Python string methods *)

Module PyStr.

Definition code (c : ascii) : nat := nat_of_ascii c.

(** [str.isspace] on the ASCII range: TAB, LF, VT, FF, CR, FS, GS, RS, US
    and SPACE. *)
Definition isspace (c : ascii) : bool :=
  let n := code c in
  (((9 <=? n) && (n <=? 13)) || ((28 <=? n) && (n <=? 32)))%nat.

Definition upper_char (c : ascii) : ascii :=
  let n := code c in
  if ((97 <=? n) && (n <=? 122))%nat then ascii_of_nat (n - 32) else c.

Definition lower_char (c : ascii) : ascii :=
  let n := code c in
  if ((65 <=? n) && (n <=? 90))%nat then ascii_of_nat (n + 32) else c.

Fixpoint upper (s : string) : string :=
  match s with
  | EmptyString => EmptyString
  | String c s' => String (upper_char c) (upper s')
  end.

Fixpoint lower (s : string) : string :=
  match s with
  | EmptyString => EmptyString
  | String c s' => String (lower_char c) (lower s')
  end.

Fixpoint lstrip (s : string) : string :=
  match s with
  | EmptyString => EmptyString
  | String c s' => if isspace c then lstrip s' else s
  end.

Fixpoint rstrip (s : string) : string :=
  match s with
  | EmptyString => EmptyString
  | String c s' =>
      match rstrip s' with
      | EmptyString => if isspace c then EmptyString else String c EmptyString
      | r => String c r
      end
  end.

(** [s.strip()] *)
Definition strip (s : string) : string := rstrip (lstrip s).

(** [s.split(sep)] for a one-character separator: never the empty list. *)
Fixpoint split (sep : ascii) (s : string) : list string :=
  match s with
  | EmptyString => [EmptyString]
  | String c s' =>
      if Ascii.eqb c sep then EmptyString :: split sep s'
      else match split sep s' with
           | h :: t => String c h :: t
           | [] => [String c EmptyString]
           end
  end.

(** [sep in s] for a one-character [sep]. *)
Fixpoint contains (sep : ascii) (s : string) : bool :=
  match s with
  | EmptyString => false
  | String c s' => Ascii.eqb c sep || contains sep s'
  end.

(** [s[s.find(sep) + 1:]] when [sep] occurs in [s]; when it does not,
    [find] is [-1] and the slice is the whole string. *)
Fixpoint after_first (sep : ascii) (s : string) : string :=
  match s with
  | EmptyString => EmptyString
  | String c s' => if Ascii.eqb c sep then s' else after_first sep s'
  end.

(** [s.startswith(p)] *)
Fixpoint startswith (s p : string) : bool :=
  match p, s with
  | EmptyString, _ => true
  | String _ _, EmptyString => false
  | String a p', String b s' => Ascii.eqb a b && startswith s' p'
  end.

(** Truthiness of a [str]. *)
Definition truthy (s : string) : bool :=
  match s with EmptyString => false | _ => true end.

(** [a or b] on [Optional[str]] with a [str] default. *)
Definition or_else (o : option string) (d : string) : string :=
  match o with
  | Some s => if truthy s then s else d
  | None => d
  end.

End PyStr.

(** ** Change decoder *)

(** The events the SAX parser delivers to the content handler. *)
Inductive SaxEvent :=
| StartElement (name : string) (attrs : gmap string string)
| EndElement (name : string).

(** [DlnaDmrEventContentHandler] *)
Record DlnaDmrEventContentHandler := mkHandler {
  changes : gmap string (gmap string string);
  _current_instance : option string
}.

Definition handler_init : DlnaDmrEventContentHandler :=
  {| changes := ∅; _current_instance := None |}.

Definition startElement (self : DlnaDmrEventContentHandler)
    (name : string) (attrs : gmap string string) : DlnaDmrEventContentHandler :=
  match attrs !! "val" with
  | None => self
  | Some val =>
      if String.eqb name "InstanceID" then
        {| changes := changes self; _current_instance := Some val |}
      else
        let current_instance := PyStr.or_else (_current_instance self) "0" in
        let changes1 :=
          match changes self !! current_instance with
          | Some _ => changes self
          | None => <[current_instance := ∅]> (changes self)
          end in
        (* attrs.get("channel") not in (None, "Master") *)
        let other_channel :=
          match attrs !! "channel" with
          | None => false
          | Some ch => negb (String.eqb ch "Master")
          end in
        if other_channel then
          {| changes := changes1; _current_instance := _current_instance self |}
        else
          let name' := if PyStr.contains ":" name
                       then PyStr.after_first ":" name else name in
          {| changes :=
               <[current_instance :=
                   <[name' := val]> (default ∅ (changes1 !! current_instance))]>
                 changes1;
             _current_instance := _current_instance self |}
  end.

Definition endElement (self : DlnaDmrEventContentHandler) (name : string)
    : DlnaDmrEventContentHandler :=
  if String.eqb name "InstanceID" then
    {| changes := changes self; _current_instance := None |}
  else self.

Definition handle (self : DlnaDmrEventContentHandler) (ev : SaxEvent)
    : DlnaDmrEventContentHandler :=
  match ev with
  | StartElement name attrs => startElement self name attrs
  | EndElement name => endElement self name
  end.

(** [_parse_last_change_event], on the event stream [parseString] produces
    for the text. *)
Definition _parse_last_change_event (events : list SaxEvent)
    : gmap string (gmap string string) :=
  changes (fold_left handle events handler_init).

(** ** Effects of the profile's methods *)

(** Argument values handed to an action invocation. *)
Inductive PyArg :=
| ArgInt (z : Z)
| ArgStr (s : string)
| ArgBool (b : bool).

Inductive Exception :=
| UpnpError (msg : string)
| IndexError
| HttpError.  (* whatever the HTTP requester raises *)

Inductive Effect :=
| LogDebug (msg : string)
| LogWarning (msg : string)
| NotifyChanged (changes_0 : gmap string string)
    (* service.notify_changed_state_variables(changes_0) *)
| ActionCall (service action : string) (args : list (string * PyArg))
    (* action.async_call with the keyword arguments args *)
| HttpRequest (method url : string).
    (* requester.async_http_request(method, url, headers) *)

Inductive Outcome (A : Type) :=
| Returned (a : A)
| Raised (e : Exception).
Arguments Returned {A} a.
Arguments Raised {A} e.

(** A run of a method: what it did, in order, and how it ended. *)
Definition Run (A : Type) : Type := list Effect * Outcome A.

Definition ret {A} (a : A) : Run A := ([], Returned a).
Definition raise {A} (e : Exception) : Run A := ([], Raised e).
Definition emit (ef : Effect) : Run unit := ([ef], Returned tt).

Definition bind {A B} (m : Run A) (f : A -> Run B) : Run B :=
  match m with
  | (t, Returned a) => let '(t', r) := f a in ((t ++ t')%list, r)
  | (t, Raised e) => (t, Raised e)
  end.

Notation "x <- m ;; k" := (bind m (fun x => k))
  (at level 100, m at next level, right associativity).
Notation "m ;;; k" := (bind m (fun _ => k))
  (at level 100, right associativity).

Definition effects {A} (r : Run A) : list Effect := fst r.
Definition outcome {A} (r : Run A) : Outcome A := snd r.

Definition is_action_call (ef : Effect) : bool :=
  match ef with ActionCall _ _ _ => true | _ => false end.


Definition is_warning (ef : Effect) : bool :=
  match ef with LogWarning _ => true | _ => false end.

(** ** Devices *)

(** [UpnpStateVariable], with its value already coerced to the variable's
    data type [V] by the UPnP layer: [string] for the AVTransport variables
    read here, a number for the RenderingControl levels. *)
Record UpnpStateVariable (V : Type) := mkStateVariable {
  sv_name : string;
  value : option V;
  updated_at : option Z;
  min_value : option Q;
  max_value : option Q;
  allowed_values : list string
}.
Arguments mkStateVariable {V}.
Arguments sv_name {V}.
Arguments value {V}.
Arguments updated_at {V}.
Arguments min_value {V}.
Arguments max_value {V}.
Arguments allowed_values {V}.

(** [UpnpAction]: its arguments, each with its related state variable. *)
Record UpnpAction := mkAction {
  arguments : gmap string (UpnpStateVariable Q)
}.

(** A DIDL-Lite item class. *)
Inductive DidlType := DidlClass (upnp_class : string).

Record Resource := mkResource {
  uri : string;
  protocol_info : string
}.

Inductive AttrValue :=
| AttrStr (s : string)
| AttrNone
| AttrResources (rs : list Resource).

(** [didl_lite.DidlObject]: an instance of an item class with its
    attributes. *)
Record DidlObject := mkDidlObject {
  didl_type : DidlType;
  attributes : gmap string AttrValue
}.

(** What [didl_lite.from_xml_string] can hand back. *)
Inductive DidlItem :=
| ItemObject (o : DidlObject)
| ItemDescriptor.

(** [DmrDevice]: the state variables and actions of the services the
    profile reads, the device's answer to CM/GetProtocolInfo, and the two
    cached metadata items. *)
Record DmrDevice := mkDevice {
  avt_state_variables : gmap string (UpnpStateVariable string);
  rc_state_variables : gmap string (UpnpStateVariable Q);
  actions : gmap (string * string) UpnpAction;
  protocol_info_Source : string;
  protocol_info_Sink : string;
  _current_track_meta_data : option DidlObject;
  _av_transport_uri_meta_data : option DidlObject
}.

Definition _state_variable_AVT (self : DmrDevice) (name : string) :=
  avt_state_variables self !! name.

Definition _state_variable_RC (self : DmrDevice) (name : string) :=
  rc_state_variables self !! name.

Definition _action (self : DmrDevice) (service name : string) : option UpnpAction :=
  actions self !! (service, name).

(** ** Dispatch of a LastChange notification *)




(** ** State reader *)

Inductive TransportState :=
| STOPPED | PLAYING | TRANSITIONING | PAUSED_PLAYBACK | PAUSED_RECORDING
| RECORDING | NO_MEDIA_PRESENT | VENDOR_DEFINED.

Definition TransportState_name (m : TransportState) : string :=
  match m with
  | STOPPED => "STOPPED"
  | PLAYING => "PLAYING"
  | TRANSITIONING => "TRANSITIONING"
  | PAUSED_PLAYBACK => "PAUSED_PLAYBACK"
  | PAUSED_RECORDING => "PAUSED_RECORDING"
  | RECORDING => "RECORDING"
  | NO_MEDIA_PRESENT => "NO_MEDIA_PRESENT"
  | VENDOR_DEFINED => "VENDOR_DEFINED"
  end.

Definition TransportState_members : list TransportState :=
  [STOPPED; PLAYING; TRANSITIONING; PAUSED_PLAYBACK; PAUSED_RECORDING;
   RECORDING; NO_MEDIA_PRESENT; VENDOR_DEFINED].

(** [TransportState[name]]; [None] is the [KeyError]. *)
Definition TransportState_getitem (name : string) : option TransportState :=
  find (fun m => String.eqb (TransportState_name m) name) TransportState_members.

Inductive PlayMode :=
| NORMAL | SHUFFLE | REPEAT_ONE | REPEAT_ALL | RANDOM | DIRECT_1 | INTRO
| PM_VENDOR_DEFINED.

Definition PlayMode_name (m : PlayMode) : string :=
  match m with
  | NORMAL => "NORMAL"
  | SHUFFLE => "SHUFFLE"
  | REPEAT_ONE => "REPEAT_ONE"
  | REPEAT_ALL => "REPEAT_ALL"
  | RANDOM => "RANDOM"
  | DIRECT_1 => "DIRECT_1"
  | INTRO => "INTRO"
  | PM_VENDOR_DEFINED => "VENDOR_DEFINED"
  end.

Definition PlayMode_members : list PlayMode :=
  [NORMAL; SHUFFLE; REPEAT_ONE; REPEAT_ALL; RANDOM; DIRECT_1; INTRO;
   PM_VENDOR_DEFINED].

Definition PlayMode_getitem (name : string) : option PlayMode :=
  find (fun m => String.eqb (PlayMode_name m) name) PlayMode_members.

(** [DmrDevice.transport_state] *)
Definition transport_state (self : DmrDevice) : option TransportState :=
  match _state_variable_AVT self "TransportState" with
  | None => None
  | Some state_var =>
      let state_value := PyStr.upper (PyStr.strip (PyStr.or_else (value state_var) "")) in
      match TransportState_getitem state_value with
      | Some m => Some m
      | None => Some VENDOR_DEFINED
      end
  end.

(** [DmrDevice.play_mode] *)
Definition play_mode (self : DmrDevice) : option PlayMode :=
  match _state_variable_AVT self "CurrentPlayMode" with
  | None => None
  | Some state_var =>
      let state_value := PyStr.upper (PyStr.strip (PyStr.or_else (value state_var) "")) in
      match PlayMode_getitem state_value with
      | Some m => Some m
      | None => Some PM_VENDOR_DEFINED
      end
  end.

(** [DmrDevice._has_current_transport_actions] *)
Definition _has_current_transport_actions (self : DmrDevice) : bool :=
  match _state_variable_AVT self "CurrentTransportActions" with
  | None => false
  | Some state_var =>
      bool_decide (is_Some (value state_var)) || bool_decide (is_Some (updated_at state_var))
  end.

(** [DmrDevice._current_transport_actions] *)
Definition _current_transport_actions (self : DmrDevice) : list string :=
  match _state_variable_AVT self "CurrentTransportActions" with
  | None => []
  | Some state_var =>
      let transport_actions := PyStr.split "," (PyStr.or_else (value state_var) "") in
      map (fun a => PyStr.strip (PyStr.lower a)) transport_actions
  end.

(** [action in l] *)
Definition str_in (a : string) (l : list string) : bool :=
  existsb (String.eqb a) l.

(** [DmrDevice._can_transport_action] *)
Definition _can_transport_action (self : DmrDevice) (action : string) : bool :=
  str_in action (_current_transport_actions self)
  || negb (_has_current_transport_actions self).

(** *** Levels *)

(** [x or d] on an optional number: [None] and [0] are falsy. *)
Definition num_or (o : option Q) (d : Q) : Q :=
  match o with
  | Some q => if Qeq_bool q 0 then d else q
  | None => d
  end.

(** [min(a, b)]: [b] when [b < a], else [a]. *)
Definition py_min (a b : Q) : Q :=
  if negb (Qle_bool a b) then b else a.

(** [int(x)]: truncation towards zero. *)
Definition py_int (x : Q) : Z := Z.quot (Qnum x) (Z.pos (Qden x)).


(** [DmrDevice._level] *)
Definition _level (self : DmrDevice) (var_name : string) : Run (option Q) :=
  match _state_variable_RC self var_name with
  | None => raise (UpnpError ("Missing StateVariable RC/" +:+ var_name))
  | Some state_var =>
      match value state_var with
      | None =>
          emit (LogDebug ("Got no value for " +:+ var_name)) ;;;
          ret None
      | Some value =>
          let max_value := num_or (max_value state_var) (100 # 1) in
          ret (Some (py_min (value / max_value) (1 # 1)))
      end
  end.

(** [DmrDevice._async_set_level] *)
Definition _async_set_level (self : DmrDevice) (var_name : string) (level : Q)
    (kwargs : list (string * PyArg)) : Run unit :=
  match _action self "RC" ("Set" +:+ var_name) with
  | None => raise (UpnpError ("Missing Action RC/Set" +:+ var_name))
  | Some action =>
      let arg_name := "Desired" +:+ var_name in
      match arguments action !! arg_name with
      | None =>
          raise (UpnpError ("Missing Argument " +:+ arg_name
                            +:+ " for Action RC/Set" +:+ var_name))
      | Some state_variable =>
          let min_ := num_or (min_value state_variable) (0 # 1) in
          let max_ := num_or (max_value state_variable) (100 # 1) in
          let desired_level := py_int (min_ + level * (max_ - min_)) in
          let args := (kwargs ++ [(arg_name, ArgInt desired_level)])%list in
          emit (ActionCall "RC" ("Set" +:+ var_name)
                  (("InstanceID", ArgInt 0) :: args))
      end
  end.


Definition async_set_volume_level (self : DmrDevice) (volume : Q) : Run unit :=
  _async_set_level self "Volume" volume [("Channel", ArgStr "Master")].

Definition brightness_level (self : DmrDevice) : Run (option Q) :=
  _level self "Brightness".

Definition async_set_brightness_level (self : DmrDevice) (brightness : Q) : Run unit :=
  _async_set_level self "Brightness" brightness [].

(** *** Transport actions *)

Definition has_pause (self : DmrDevice) : bool :=
  bool_decide (is_Some (_action self "AVT" "Pause")).

Definition can_pause (self : DmrDevice) : bool :=
  has_pause self && _can_transport_action self "pause".

Definition async_pause (self : DmrDevice) : Run unit :=
  if negb (_can_transport_action self "pause") then
    emit (LogDebug "Cannot do Pause")
  else
    match _action self "AVT" "Pause" with
    | None => raise (UpnpError "Missing action AVT/Pause")
    | Some action => emit (ActionCall "AVT" "Pause" [("InstanceID", ArgInt 0)])
    end.

Definition has_play (self : DmrDevice) : bool :=
  bool_decide (is_Some (_action self "AVT" "Play")).

Definition can_play (self : DmrDevice) : bool :=
  has_play self && _can_transport_action self "play".

Definition async_play (self : DmrDevice) : Run unit :=
  if negb (_can_transport_action self "play") then
    emit (LogDebug "Cannot do Play")
  else
    match _action self "AVT" "Play" with
    | None => raise (UpnpError "Missing action AVT/Play")
    | Some action =>
        emit (ActionCall "AVT" "Play"
                [("InstanceID", ArgInt 0); ("Speed", ArgStr "1")])
    end.

Definition has_stop (self : DmrDevice) : bool :=
  bool_decide (is_Some (_action self "AVT" "Stop")).

Definition can_stop (self : DmrDevice) : bool :=
  has_stop self && _can_transport_action self "stop".

Definition async_stop (self : DmrDevice) : Run unit :=
  if negb (_can_transport_action self "stop") then
    emit (LogDebug "Cannot do Stop")
  else
    match _action self "AVT" "Stop" with
    | None => raise (UpnpError "Missing action AVT/Stop")
    | Some action => emit (ActionCall "AVT" "Stop" [("InstanceID", ArgInt 0)])
    end.

Definition has_previous (self : DmrDevice) : bool :=
  bool_decide (is_Some (_action self "AVT" "Previous")).

Definition can_previous (self : DmrDevice) : bool :=
  has_previous self && _can_transport_action self "previous".

Definition async_previous (self : DmrDevice) : Run unit :=
  if negb (_can_transport_action self "previous") then
    emit (LogDebug "Cannot do Previous")
  else
    match _action self "AVT" "Previous" with
    | None => raise (UpnpError "Missing action AVT/Previous")
    | Some action => emit (ActionCall "AVT" "Previous" [("InstanceID", ArgInt 0)])
    end.

Definition has_next (self : DmrDevice) : bool :=
  bool_decide (is_Some (_action self "AVT" "Next")).

Definition can_next (self : DmrDevice) : bool :=
  has_next self && _can_transport_action self "next".

Definition async_next (self : DmrDevice) : Run unit :=
  if negb (_can_transport_action self "next") then
    emit (LogDebug "Cannot do Next")
  else
    match _action self "AVT" "Next" with
    | None => raise (UpnpError "Missing action AVT/Next")
    | Some action => emit (ActionCall "AVT" "Next" [("InstanceID", ArgInt 0)])
    end.

(** [DmrDevice._has_seek_with_mode] *)
Definition _has_seek_with_mode (self : DmrDevice) (mode : string) : bool :=
  match _action self "AVT" "Seek", _state_variable_AVT self "A_ARG_TYPE_SeekMode" with
  | Some action, Some state_var =>
      let seek_modes :=
        map (fun mode => PyStr.strip (PyStr.lower mode)) (allowed_values state_var) in
      str_in (PyStr.lower mode) seek_modes
  | _, _ => false
  end.

Definition has_seek_abs_time (self : DmrDevice) : bool :=
  _has_seek_with_mode self "ABS_TIME".

Definition can_seek_abs_time (self : DmrDevice) : bool :=
  has_seek_abs_time self && _can_transport_action self "seek".

Definition has_seek_rel_time (self : DmrDevice) : bool :=
  _has_seek_with_mode self "REL_TIME".

Definition can_seek_rel_time (self : DmrDevice) : bool :=
  has_seek_rel_time self && _can_transport_action self "seek".

(** [datetime.timedelta], normalised as Python keeps it. *)
Record timedelta := mkTimedelta {
  days : Z;
  seconds : Z;
  microseconds : Z
}.

Section Seek.

(** [async_upnp_client.utils.time_to_str] *)
Variable time_to_str : timedelta -> string.

Definition async_seek_abs_time (self : DmrDevice) (time : timedelta) : Run unit :=
  if negb (_can_transport_action self "seek") then
    emit (LogDebug "Cannot do Seek by ABS_TIME")
  else
    match _action self "AVT" "Seek" with
    | None => raise (UpnpError "Missing action AVT/Seek")
    | Some action =>
        let target := time_to_str time in
        emit (ActionCall "AVT" "Seek"
                [("InstanceID", ArgInt 0); ("Unit", ArgStr "ABS_TIME");
                 ("Target", ArgStr target)])
    end.

Definition async_seek_rel_time (self : DmrDevice) (time : timedelta) : Run unit :=
  if negb (_can_transport_action self "seek") then
    emit (LogDebug "Cannot do Seek by REL_TIME")
  else
    match _action self "AVT" "Seek" with
    | None => raise (UpnpError "Missing action AVT/Seek")
    | Some action =>
        let target := time_to_str time in
        emit (ActionCall "AVT" "Seek"
                [("InstanceID", ArgInt 0); ("Unit", ArgStr "REL_TIME");
                 ("Target", ArgStr target)])
    end.

End Seek.

(** The seven transport commands, for statements about all of them. *)
Inductive TransportCommand :=
| CmdPause | CmdPlay | CmdStop | CmdNext | CmdPrevious
| CmdSeekAbsTime (time : timedelta)
| CmdSeekRelTime (time : timedelta).

(** The name the command passes to [_can_transport_action]. *)
Definition permission_name (c : TransportCommand) : string :=
  match c with
  | CmdPause => "pause"
  | CmdPlay => "play"
  | CmdStop => "stop"
  | CmdNext => "next"
  | CmdPrevious => "previous"
  | CmdSeekAbsTime _ | CmdSeekRelTime _ => "seek"
  end.

(** The AVT action the command looks up. *)
Definition action_name (c : TransportCommand) : string :=
  match c with
  | CmdPause => "Pause"
  | CmdPlay => "Play"
  | CmdStop => "Stop"
  | CmdNext => "Next"
  | CmdPrevious => "Previous"
  | CmdSeekAbsTime _ | CmdSeekRelTime _ => "Seek"
  end.

Definition run_command (time_to_str : timedelta -> string) (self : DmrDevice)
    (c : TransportCommand) : Run unit :=
  match c with
  | CmdPause => async_pause self
  | CmdPlay => async_play self
  | CmdStop => async_stop self
  | CmdNext => async_next self
  | CmdPrevious => async_previous self
  | CmdSeekAbsTime t => async_seek_abs_time time_to_str self t
  | CmdSeekRelTime t => async_seek_rel_time time_to_str self t
  end.

(** ** Metadata cache *)

Definition set_current_track_meta_data (self : DmrDevice)
    (item : option DidlObject) : DmrDevice :=
  {| avt_state_variables := avt_state_variables self;
     rc_state_variables := rc_state_variables self;
     actions := actions self;
     protocol_info_Source := protocol_info_Source self;
     protocol_info_Sink := protocol_info_Sink self;
     _current_track_meta_data := item;
     _av_transport_uri_meta_data := _av_transport_uri_meta_data self |}.

Definition set_av_transport_uri_meta_data (self : DmrDevice)
    (item : option DidlObject) : DmrDevice :=
  {| avt_state_variables := avt_state_variables self;
     rc_state_variables := rc_state_variables self;
     actions := actions self;
     protocol_info_Source := protocol_info_Source self;
     protocol_info_Sink := protocol_info_Sink self;
     _current_track_meta_data := _current_track_meta_data self;
     _av_transport_uri_meta_data := item |}.

Section MetadataCache.

(** [didl_lite.from_xml_string(xml, strict=False)] *)
Variable from_xml_string : string -> list DidlItem.

(** [DmrDevice._update_current_track_meta_data] *)
Definition _update_current_track_meta_data (self : DmrDevice)
    (state_var : UpnpStateVariable string) : DmrDevice :=
  match value state_var with
  | None => set_current_track_meta_data self None
  | Some xml =>
      if negb (PyStr.truthy xml) || String.eqb xml "NOT_IMPLEMENTED" then
        set_current_track_meta_data self None
      else
        match from_xml_string xml with
        | [] => set_current_track_meta_data self None
        | ItemDescriptor :: _ => set_current_track_meta_data self None
        | ItemObject item :: _ => set_current_track_meta_data self (Some item)
        end
  end.

(** [DmrDevice._update_av_transport_uri_metadata] *)
Definition _update_av_transport_uri_metadata (self : DmrDevice)
    (state_var : UpnpStateVariable string) : DmrDevice :=
  match value state_var with
  | None => set_av_transport_uri_meta_data self None
  | Some xml =>
      if negb (PyStr.truthy xml) || String.eqb xml "NOT_IMPLEMENTED" then
        set_av_transport_uri_meta_data self None
      else
        match from_xml_string xml with
        | [] => set_av_transport_uri_meta_data self None
        | ItemDescriptor :: _ => set_av_transport_uri_meta_data self None
        | ItemObject item :: _ => set_av_transport_uri_meta_data self (Some item)
        end
  end.

End MetadataCache.

(** [DmrDevice._get_current_track_meta_data]; [AttrNone] is Python's
    [None]. *)
Definition _get_current_track_meta_data (self : DmrDevice) (attr : string)
    : AttrValue :=
  match _current_track_meta_data self with
  | None => AttrNone
  | Some item =>
      match attributes item !! attr with
      | None => AttrNone
      | Some value => value
      end
  end.

(** [DmrDevice._get_av_transport_meta_data] *)
Definition _get_av_transport_meta_data (self : DmrDevice) (attr : string)
    : AttrValue :=
  match _av_transport_uri_meta_data self with
  | None => AttrNone
  | Some item =>
      match attributes item !! attr with
      | None => AttrNone
      | Some value => value
      end
  end.

Definition media_class (self : DmrDevice) : option string :=
  match _current_track_meta_data self with
  | None => None
  | Some item => match didl_type item with DidlClass c => Some c end
  end.

Definition media_title (self : DmrDevice) : AttrValue :=
  _get_current_track_meta_data self "title".

Definition media_artist (self : DmrDevice) : AttrValue :=
  _get_current_track_meta_data self "artist".

Definition media_album_name (self : DmrDevice) : AttrValue :=
  _get_current_track_meta_data self "album".

Definition media_album_artist (self : DmrDevice) : AttrValue :=
  _get_current_track_meta_data self "album_artist".

Section Times.

(** [async_upnp_client.utils.str_to_time] *)
Variable str_to_time : string -> option timedelta.

(** [DmrDevice.media_duration] *)
Definition media_duration (self : DmrDevice) : option Z :=
  match _state_variable_AVT self "CurrentTrackDuration" with
  | None => None
  | Some state_var =>
      match value state_var with
      | None => None
      | Some v =>
          if String.eqb v "NOT_IMPLEMENTED" then None
          else match str_to_time v with
               | None => None
               | Some time => Some (seconds time)
               end
      end
  end.

(** [DmrDevice.media_position] *)
Definition media_position (self : DmrDevice) : option Z :=
  match _state_variable_AVT self "RelativeTimePosition" with
  | None => None
  | Some state_var =>
      match value state_var with
      | None => None
      | Some v =>
          if String.eqb v "NOT_IMPLEMENTED" then None
          else match str_to_time v with
               | None => None
               | Some time => Some (seconds time)
               end
      end
  end.

End Times.

(** ** Media descriptor builder *)

(** Truthiness of an [Optional[str]]. *)
Definition opt_truthy (o : option string) : bool :=
  match o with
  | Some s => PyStr.truthy s
  | None => false
  end.

Definition is_None {A} (o : option A) : bool :=
  match o with
  | None => true
  | Some _ => false
  end.

(** Run [m]; an exception ends it with [d] instead ([except Exception: pass]). *)
Definition catch_all {A} (m : Run A) (d : A) : Run A :=
  match m with
  | (t, Returned a) => (t, Returned a)
  | (t, Raised _) => (t, Returned d)
  end.

(** [DmrDevice.has_get_protocol_info] *)
Definition has_get_protocol_info (self : DmrDevice) : bool :=
  bool_decide (is_Some (_action self "CM" "GetProtocolInfo")).

Record ProtocolInfo := mkProtocolInfo {
  source : list string;
  sink : list string
}.

(** [DmrDevice.async_get_protocol_info] *)
Definition async_get_protocol_info (self : DmrDevice) : Run ProtocolInfo :=
  match _action self "CM" "GetProtocolInfo" with
  | None => ret {| source := []; sink := [] |}
  | Some action =>
      emit (ActionCall "CM" "GetProtocolInfo" []) ;;;
      ret {| source := PyStr.split "," (protocol_info_Source self);
             sink := PyStr.split "," (protocol_info_Sink self) |}
  end.

(** The comprehension of [_async_get_sink_protocol_info_for_mime_type]:
    [entry.split(":")[2]] raises when the entry has fewer than three
    fields. *)
Fixpoint entries_for_mime_type (mime_type : string) (entries : list string)
    : Run (list (list string)) :=
  match entries with
  | [] => ret []
  | entry :: rest =>
      if PyStr.contains ":" entry then
        match PyStr.split ":" entry !! 2%nat with
        | None => raise IndexError
        | Some m =>
            if String.eqb m mime_type then
              r <- entries_for_mime_type mime_type rest ;;
              ret (PyStr.split ":" entry :: r)
            else entries_for_mime_type mime_type rest
        end
      else entries_for_mime_type mime_type rest
  end.

(** [DmrDevice._async_get_sink_protocol_info_for_mime_type] *)
Definition _async_get_sink_protocol_info_for_mime_type (self : DmrDevice)
    (mime_type : string) : Run (list (list string)) :=
  protocol_info <- async_get_protocol_info self ;;
  let source := source protocol_info in
  entries_for_mime_type mime_type source.

(** The loop over the protocol info entries: [entry[3]] raises on an entry
    of fewer than four fields. *)
Fixpoint widen_dlna_features (protocol_info_entries : list (list string))
    (dlna_features : string) : Run string :=
  match protocol_info_entries with
  | [] => ret dlna_features
  | entry :: rest =>
      match entry !! 3%nat with
      | None => raise IndexError
      | Some f =>
          widen_dlna_features rest
            (if String.eqb f "*" then "*" else dlna_features)
      end
  end.

(** What the HTTP requester answers. *)
Inductive HttpResult :=
| HttpFailed
| HttpResponse (status : Z) (headers : gmap string string).

Section Builder.

(** [requester.async_http_request(method, url, headers)] *)
Variable async_http_request :
  string -> string -> gmap string string -> HttpResult.

(** [mimetypes.guess_type(url)[0]] *)
Variable guess_type : string -> option string.

(** [async_upnp_client.const.MIME_TO_UPNP_CLASS_MAPPING], in order. *)
Variable MIME_TO_UPNP_CLASS_MAPPING : list (string * string).

(** [didl_lite.type_by_upnp_class] *)
Variable type_by_upnp_class : string -> option DidlType.

(** [didl_lite.to_xml_string], decoded. *)
Variable to_xml_string : DidlObject -> string.

Definition http_request (method url : string) (headers : gmap string string)
    : Run (Z * gmap string string) :=
  emit (HttpRequest method url) ;;;
  match async_http_request method url headers with
  | HttpFailed => raise HttpError
  | HttpResponse status headers => ret (status, headers)
  end.

(** [DmrDevice._fetch_headers]. The HEAD request rebinds [headers] to
    the headers of its response, and those are what the GET sends. *)
Definition _fetch_headers (url : string) (headers : gmap string string)
    : Run (option (gmap string string)) :=
  r <- http_request "HEAD" url headers ;;
  let '(status, headers) := r in
  if (200 <=? status)%Z && (status <? 300)%Z then ret (Some headers)
  else
    r <- http_request "GET" url headers ;;
    let '(status, headers) := r in
    if (200 <=? status)%Z && (status <? 300)%Z then ret (Some headers)
    else ret None.

(** The first class whose mime prefix starts the mime type. *)
Definition class_for_mime_type (mime_type : string) : option string :=
  snd <$> find (fun e => PyStr.startswith mime_type (fst e))
               MIME_TO_UPNP_CLASS_MAPPING.

(** The [mime_type] and [dlna_features] after the probe of the resource,
    when one of the two was not overridden. *)
Definition probe (self : DmrDevice) (media_url : string)
    (default_mime_type override_mime_type override_dlna_features : option string)
    (mime_type dlna_features : string) : Run (string * string) :=
  headers <- catch_all
    (_fetch_headers media_url {[ "GetContentFeatures.dlna.org" := "1" ]}) None ;;
  let '(mime_type, dlna_features) :=
    match headers with
    | Some headers =>
        if bool_decide (headers = ∅) then (mime_type, dlna_features)
        else
          (match headers !! "Content-Type" with
           | Some ct => if negb (opt_truthy override_mime_type) then ct else mime_type
           | None => mime_type
           end,
           match headers !! "ContentFeatures.dlna.org" with
           | Some cf => if negb (opt_truthy override_dlna_features) then cf
                        else dlna_features
           | None => dlna_features
           end)
    | None => (mime_type, dlna_features)
    end in
  let mime_type :=
    if negb (PyStr.truthy mime_type) then
      let _type := guess_type (hd "" (PyStr.split "?" media_url)) in
      let mime_type := PyStr.or_else _type "" in
      if negb (PyStr.truthy mime_type)
      then PyStr.or_else default_mime_type "application/octet-stream"
      else mime_type
    else mime_type in
  if negb (opt_truthy override_dlna_features)
     && negb (String.eqb dlna_features "*")
     && has_get_protocol_info self
  then
    protocol_info_entries <-
      _async_get_sink_protocol_info_for_mime_type self mime_type ;;
    dlna_features <- widen_dlna_features protocol_info_entries dlna_features ;;
    ret (mime_type, dlna_features)
  else ret (mime_type, dlna_features).

(** The item handed to the encoder. *)
Definition build_item (didl_item_type : DidlType)
    (media_url media_title mime_type dlna_features : string)
    (meta_data : gmap string string) : DidlObject :=
  let protocol_info :=
    "http-get:*:" +:+ mime_type +:+ ":" +:+ dlna_features in
  let resource := {| uri := media_url; protocol_info := protocol_info |} in
  let title :=
    if PyStr.truthy media_title then AttrStr media_title
    else match meta_data !! "title" with
         | Some t => AttrStr t
         | None => AttrNone
         end in
  let item : gmap string AttrValue :=
    <["id" := AttrStr "0"]>
      (<["parent_id" := AttrStr "-1"]>
         (<["title" := title]>
            (<["restricted" := AttrStr "false"]>
               {[ "resources" := AttrResources [resource] ]}))) in
  (* setattr(item, key, str(value)) for every key of meta_data *)
  {| didl_type := didl_item_type;
     attributes := (AttrStr <$> meta_data) ∪ item |}.

(** [DmrDevice.construct_play_media_metadata] *)
Definition construct_play_media_metadata (self : DmrDevice)
    (media_url media_title : string)
    (default_mime_type default_upnp_class : option string)
    (override_mime_type override_upnp_class override_dlna_features : option string)
    (meta_data : option (gmap string string)) : Run string :=
  let mime_type := PyStr.or_else override_mime_type "" in
  let upnp_class := PyStr.or_else override_upnp_class "" in
  let dlna_features := PyStr.or_else override_dlna_features "*" in
  let meta_data := default ∅ meta_data in
  probed <-
    (if is_None override_mime_type || is_None override_dlna_features then
       probe self media_url default_mime_type override_mime_type
         override_dlna_features mime_type dlna_features
     else ret (mime_type, dlna_features)) ;;
  let '(mime_type, dlna_features) := probed in
  let '(mime_type, upnp_class) :=
    if negb (opt_truthy override_upnp_class) then
      let mime_type := PyStr.lower mime_type in
      (mime_type,
       match class_for_mime_type mime_type with
       | Some _class => _class
       | None => PyStr.or_else default_upnp_class "object.item"
       end)
    else (mime_type, upnp_class) in
  match type_by_upnp_class upnp_class with
  | None => raise (UpnpError "Unknown DIDL-lite type")
  | Some didl_item_type =>
      ret (to_xml_string
             (build_item didl_item_type media_url media_title mime_type
                dlna_features meta_data))
  end.

End Builder.

(** ** Payloads with a single instance scope *)

(** A variable element of a LastChange payload: its qualified name and its
    attributes; an empty element, so its start is followed by its end. *)
Definition element_events (e : string * gmap string string) : list SaxEvent :=
  [StartElement e.1 e.2; EndElement e.1].

(** The events of
    [<Event xmlns=..><InstanceID val="0"> elems </InstanceID></Event>]. *)
Definition single_scope_payload (instance : string)
    (elems : list (string * gmap string string)) : list SaxEvent :=
  (StartElement "Event" {[ "xmlns" := "urn:schemas-upnp-org:metadata-1-0/AVT/" ]}
   :: StartElement "InstanceID" {[ "val" := instance ]}
   :: flat_map element_events elems
   ++ [EndElement "InstanceID"; EndElement "Event"])%list.

(** A variable element carries [val] and is not itself an [InstanceID]. *)
Definition variable_element (e : string * gmap string string) : Prop :=
  is_Some (e.2 !! "val") ∧ e.1 ≠ "InstanceID".

(** The name with its namespace prefix stripped. *)
Definition local_name (name : string) : string :=
  if PyStr.contains ":" name then PyStr.after_first ":" name else name.

(** No [channel] attribute, or the Master channel. *)
Definition master_channel (attrs : gmap string string) : bool :=
  match attrs !! "channel" with
  | None => true
  | Some ch => String.eqb ch "Master"
  end.


(** The entries the kept elements leave, later elements overwriting
    earlier ones of the same local name. *)
Definition entries_from (m : gmap string string)
    (elems : list (string * gmap string string)) : gmap string string :=
  fold_left
    (fun m e => if master_channel e.2
                then <[local_name e.1 := default "" (e.2 !! "val")]> m
                else m)
    elems m.


(** ** Reading the specification's words *)

(** A raw value names an enumeration member when, whitespace stripped and
    case folded, it is the member's name case folded. *)
Definition names_member (raw name : string) : Prop :=
  PyStr.lower (PyStr.strip raw) = PyStr.lower name.

(** The device publishes its current transport actions: the variable
    exists and has had a value or an update. *)
Definition actions_published (self : DmrDevice) : Prop :=
  ∃ state_var,
    _state_variable_AVT self "CurrentTransportActions" = Some state_var
    ∧ (is_Some (value state_var) ∨ is_Some (updated_at state_var)).

(** The lower-cased action name [a] is an entry of the comma-separated
    list, entries compared lower-cased and stripped. *)
Definition action_listed (self : DmrDevice) (a : string) : Prop :=
  ∃ state_var entry,
    _state_variable_AVT self "CurrentTransportActions" = Some state_var
    ∧ entry ∈ PyStr.split "," (PyStr.or_else (value state_var) "")
    ∧ PyStr.strip (PyStr.lower entry) = a.

Definition permitted (self : DmrDevice) (a : string) : Prop :=
  ¬ actions_published self ∨ action_listed self a.

Definition exposed (self : DmrDevice) (action : string) : Prop :=
  is_Some (_action self "AVT" action).

(** The seek-mode variable lists [mode] among its allowed values. *)
Definition seek_mode_allowed (self : DmrDevice) (mode : string) : Prop :=
  ∃ state_var m,
    _state_variable_AVT self "A_ARG_TYPE_SeekMode" = Some state_var
    ∧ m ∈ allowed_values state_var
    ∧ PyStr.strip (PyStr.lower m) = PyStr.lower mode.

(** ** Sample devices *)

Module Sample.

Definition string_variable (name : string) (v : option string)
    : UpnpStateVariable string :=
  mkStateVariable name v None None None [].

Definition level_variable (name : string) (v : option Q) (lo hi : option Q)
    : UpnpStateVariable Q :=
  mkStateVariable name v None lo hi [].

Definition device
    (avt : list (string * UpnpStateVariable string))
    (rc : list (string * UpnpStateVariable Q))
    (acts : list (string * string * UpnpAction)) : DmrDevice :=
  {| avt_state_variables := list_to_map avt;
     rc_state_variables := list_to_map rc;
     actions := list_to_map acts;
     protocol_info_Source := "";
     protocol_info_Sink := "";
     _current_track_meta_data := None;
     _av_transport_uri_meta_data := None |}.

Definition no_arguments : UpnpAction := {| arguments := ∅ |}.

(** A renderer in state [" playing "] that lists Play and Stop. *)
Definition playing : DmrDevice :=
  device
    [("TransportState", string_variable "TransportState" (Some " playing "));
     ("CurrentTransportActions",
      string_variable "CurrentTransportActions" (Some "Play,Stop"))]
    []
    [("AVT", "Pause", no_arguments); ("AVT", "Stop", no_arguments);
     ("AVT", "Play", no_arguments)].

(** A renderer with the Seek action and nothing else. *)
Definition seek_only : DmrDevice :=
  device [] [] [("AVT", "Seek", no_arguments)].

(** A renderer that reports NOT_IMPLEMENTED for its transport state. *)
Definition not_implemented : DmrDevice :=
  device
    [("TransportState", string_variable "TransportState" (Some "NOT_IMPLEMENTED"));
     ("CurrentTrackDuration",
      string_variable "CurrentTrackDuration" (Some "NOT_IMPLEMENTED"))]
    [] [].

End Sample.


Module SampleLevels.

(** A renderer whose volume runs from 0 to 200 and stands at [raw]. *)
Definition volume_0_200 (raw : Q) : DmrDevice :=
  let volume :=
    Sample.level_variable "Volume" (Some raw) (Some (0 # 1)) (Some (200 # 1)) in
  Sample.device [] [("Volume", volume)]
    [("RC", "SetVolume", {| arguments := {[ "DesiredVolume" := volume ]} |})].

End SampleLevels.


(** The device without the AVT state variable [name]. *)
Definition without_avt_variable (name : string) (self : DmrDevice) : DmrDevice :=
  {| avt_state_variables := delete name (avt_state_variables self);
     rc_state_variables := rc_state_variables self;
     actions := actions self;
     protocol_info_Source := protocol_info_Source self;
     protocol_info_Sink := protocol_info_Sink self;
     _current_track_meta_data := _current_track_meta_data self;
     _av_transport_uri_meta_data := _av_transport_uri_meta_data self |}.

(** A read of the AVT variable [name] takes the sentinel and the empty
    string for an absent variable. *)
Definition sentinel_reads_as_absent {A} (read : DmrDevice -> A) (name : string)
    : Prop :=
  ∀ self state_var,
    _state_variable_AVT self name = Some state_var →
    value state_var = Some "NOT_IMPLEMENTED" ∨ value state_var = Some "" →
    read self = read (without_avt_variable name self).

Module SampleEvents.

(** A payload with a scope for instance "0" and one for instance "5". *)
Definition two_instances : list SaxEvent :=
  [StartElement "Event" {[ "xmlns" := "urn:schemas-upnp-org:metadata-1-0/AVT/" ]};
   StartElement "InstanceID" {[ "val" := "0" ]};
   StartElement "TransportState" {[ "val" := "PLAYING" ]};
   EndElement "TransportState";
   EndElement "InstanceID";
   StartElement "InstanceID" {[ "val" := "5" ]};
   StartElement "TransportState" {[ "val" := "STOPPED" ]};
   EndElement "TransportState";
   EndElement "InstanceID";
   EndElement "Event"].



End SampleEvents.

Module SampleTime.

Definition digit (c : ascii) : option Z :=
  let n := PyStr.code c in
  if ((48 <=? n) && (n <=? 57))%nat then Some (Z.of_nat (n - 48)) else None.

Fixpoint number (acc : Z) (s : string) : option Z :=
  match s with
  | EmptyString => Some acc
  | String c s' =>
      match digit c with
      | Some d => number (10 * acc + d) s'
      | None => None
      end
  end.

(** A reader of [H:MM:SS], enough to stand for [str_to_time]. *)
Definition str_to_time (s : string) : option timedelta :=
  match PyStr.split ":" s with
  | [h; m; sec] =>
      if PyStr.truthy h && PyStr.truthy m && PyStr.truthy sec then
        match number 0 h, number 0 m, number 0 sec with
        | Some h, Some m, Some sec =>
            let total := (3600 * h + 60 * m + sec)%Z in
            Some {| days := total / 86400;
                    seconds := total mod 86400;
                    microseconds := 0 |}
        | _, _, _ => None
        end
      else None
  | _ => None
  end.

End SampleTime.

(** The mime type the builder settles on when the resource tells none:
    the one guessed from the URL up to its first ["?"], else the caller's
    default, else ["application/octet-stream"]. *)
Definition fallback_mime_type (guess_type : string -> option string)
    (media_url : string) (default_mime_type : option string) : string :=
  let guessed := PyStr.or_else (guess_type (hd "" (PyStr.split "?" media_url))) "" in
  if PyStr.truthy guessed then guessed
  else PyStr.or_else default_mime_type "application/octet-stream".

(** The class of a mime type: the first of the table whose prefix starts
    it, else the caller's default class, else the generic item class. *)
Definition resolved_upnp_class (table : list (string * string))
    (default_upnp_class : option string) (mime_type : string) : string :=
  match class_for_mime_type table mime_type with
  | Some _class => _class
  | None => PyStr.or_else default_upnp_class "object.item"
  end.

(** Without overrides, a probed mime type that matches no prefix of the
    class table gives an item of the generic class ["object.item"]. *)
Definition unmatched_mime_resolves_to_generic
    (async_http_request : string -> string -> gmap string string -> HttpResult)
    (guess_type : string -> option string)
    (table : list (string * string))
    (type_by_upnp_class : string -> option DidlType)
    (to_xml_string : DidlObject -> string)
    (self : DmrDevice) (media_url media_title : string)
    (default_mime_type default_upnp_class : option string) : Prop :=
  ∀ t mime_type dlna_features generic,
    probe async_http_request guess_type self media_url default_mime_type
      None None "" "*" = (t, Returned (mime_type, dlna_features)) →
    class_for_mime_type table (PyStr.lower mime_type) = None →
    type_by_upnp_class "object.item" = Some generic →
    outcome (construct_play_media_metadata async_http_request guess_type table
               type_by_upnp_class to_xml_string self media_url media_title
               default_mime_type default_upnp_class None None None None)
    = Returned (to_xml_string
                  (build_item generic media_url media_title
                     (PyStr.lower mime_type) dlna_features ∅)).

Module SampleBuilder.

(** Modelled from the spec: [MIME_TO_UPNP_CLASS_MAPPING] of
    [async_upnp_client.const], which is not among the sources: the
    ordered prefix table "audio/ → audio item, video/ → video item,
    image/ → image item". *)
Definition MIME_TO_UPNP_CLASS_MAPPING : list (string * string) :=
  [("audio/", "object.item.audioItem");
   ("video/", "object.item.videoItem");
   ("image/", "object.item.imageItem")].

(** An item class for each class of the table and for the generic one. *)
Definition type_by_upnp_class (upnp_class : string) : option DidlType :=
  if str_in upnp_class
       ["object.item"; "object.item.audioItem"; "object.item.videoItem";
        "object.item.imageItem"]
  then Some (DidlClass upnp_class) else None.

(** An encoder that shows the class and the protocol info of the
    resources. *)
Definition to_xml_string (item : DidlObject) : string :=
  let class := match didl_type item with DidlClass c => c end in
  match attributes item !! "resources" with
  | Some (AttrResources rs) =>
      fold_left (fun acc r => acc +:+ " " +:+ protocol_info r) rs class
  | _ => class
  end.

(** A guesser that knows no extension. *)
Definition guess_type (url : string) : option string := None.

(** A resource server that answers HEAD with the given headers. *)
Definition serving (headers : gmap string string)
    : string -> string -> gmap string string -> HttpResult :=
  fun _ _ _ => HttpResponse 200 headers.

(** A resource server that cannot be reached. *)
Definition unreachable : string -> string -> gmap string string -> HttpResult :=
  fun _ _ _ => HttpFailed.

(** A renderer that answers CM/GetProtocolInfo with the given lists. *)
Definition renderer (Source Sink : string) : DmrDevice :=
  {| avt_state_variables := ∅;
     rc_state_variables := ∅;
     actions := {[ ("CM", "GetProtocolInfo") := Sample.no_arguments ]};
     protocol_info_Source := Source;
     protocol_info_Sink := Sink;
     _current_track_meta_data := None;
     _av_transport_uri_meta_data := None |}.

Definition video_with_features : gmap string string :=
  <["Content-Type" := "video/mp4"]>
    {[ "ContentFeatures.dlna.org" := "DLNA.ORG_OP=01" ]}.

Definition media_url : string := "http://192.168.1.2/media/clip".

End SampleBuilder.

(** ** More of the decoder *)

(** A payload whose variable elements stand outside any instance scope:
    [<Event xmlns=..> elems </Event>]. *)
Definition unscoped_payload
    (elems : list (string * gmap string string)) : list SaxEvent :=
  (StartElement "Event" {[ "xmlns" := "urn:schemas-upnp-org:metadata-1-0/AVT/" ]}
   :: flat_map element_events elems ++ [EndElement "Event"])%list.

(** The events the handler reacts to: the start of an element with a
    [val] attribute and the end of an [InstanceID]. *)
Definition relevant (ev : SaxEvent) : bool :=
  match ev with
  | StartElement _ attrs => bool_decide (is_Some (attrs !! "val"))
  | EndElement name => String.eqb name "InstanceID"
  end.

(** ** More of the state reader *)

(** [DeviceState = Enum("DeviceState", "ON PLAYING PAUSED IDLE")] *)
Module DeviceState.
Inductive t := ON | PLAYING | PAUSED | IDLE.
End DeviceState.


#[global] Instance PlayMode_eq_dec : EqDecision PlayMode.
Proof. solve_decision. Defined.

Definition PlayMode_index (m : PlayMode) : nat :=
  match m with
  | NORMAL => 0 | SHUFFLE => 1 | REPEAT_ONE => 2 | REPEAT_ALL => 3
  | RANDOM => 4 | DIRECT_1 => 5 | INTRO => 6 | PM_VENDOR_DEFINED => 7
  end.

Definition PlayMode_of_index (n : nat) : PlayMode :=
  nth n PlayMode_members PM_VENDOR_DEFINED.

#[global] Instance PlayMode_countable : Countable PlayMode :=
  inj_countable' PlayMode_index PlayMode_of_index
    (fun m => match m with
              | NORMAL | SHUFFLE | REPEAT_ONE | REPEAT_ALL | RANDOM
              | DIRECT_1 | INTRO | PM_VENDOR_DEFINED => eq_refl
              end).

(** [DmrDevice.has_play_mode] *)
Definition has_play_mode (self : DmrDevice) : bool :=
  bool_decide (is_Some (_state_variable_AVT self "CurrentPlayMode"))
  && bool_decide (is_Some (_action self "AVT" "SetPlayMode")).


(** [DmrDevice.async_set_play_mode] *)
Definition async_set_play_mode (self : DmrDevice) (mode : PlayMode) : Run unit :=
  match _action self "AVT" "SetPlayMode" with
  | None => raise (UpnpError "Missing action AVT/SetPlayMode")
  | Some action =>
      emit (ActionCall "AVT" "SetPlayMode"
              [("InstanceID", ArgInt 0);
               ("NewPlayMode", ArgStr (PlayMode_name mode))])
  end.

(** The [can_*] predicate that goes with a transport command. *)
Definition can_command (self : DmrDevice) (c : TransportCommand) : bool :=
  match c with
  | CmdPause => can_pause self
  | CmdPlay => can_play self
  | CmdStop => can_stop self
  | CmdNext => can_next self
  | CmdPrevious => can_previous self
  | CmdSeekAbsTime _ => can_seek_abs_time self
  | CmdSeekRelTime _ => can_seek_rel_time self
  end.

(** The keyword arguments a transport command passes besides
    [InstanceID=0]. *)
Definition command_arguments (time_to_str : timedelta -> string)
    (c : TransportCommand) : list (string * PyArg) :=
  match c with
  | CmdPlay => [("Speed", ArgStr "1")]
  | CmdSeekAbsTime time =>
      [("Unit", ArgStr "ABS_TIME"); ("Target", ArgStr (time_to_str time))]
  | CmdSeekRelTime time =>
      [("Unit", ArgStr "REL_TIME"); ("Target", ArgStr (time_to_str time))]
  | _ => []
  end.

(** ** Event entry point *)




(** ** Protocol info entries *)

(** The fields of a protocol info entry, [entry.split(":")]. *)
Definition entry_fields (entry : string) : list string := PyStr.split ":" entry.

(** An entry the builder can read: without a colon it is skipped, with one
    it has the four fields [protocol:network:content-type:features]. *)
Definition readable_entry (entry : string) : Prop :=
  PyStr.contains ":" entry = true → (4 ≤ length (entry_fields entry))%nat.

(** Some entry is for the mime type and accepts any features. *)
Definition accepts_any (mime_type : string) (entries : list string) : bool :=
  existsb
    (fun entry =>
       PyStr.contains ":" entry
       && match entry_fields entry with
          | _ :: _ :: m :: f :: _ => String.eqb m mime_type && String.eqb f "*"
          | _ => false
          end)
    entries.

(** The part of [probe] that follows the reading of the headers, from the
    [mime_type] and [dlna_features] they gave. *)
Definition probe_after_headers (guess_type : string -> option string)
    (self : DmrDevice) (media_url : string)
    (default_mime_type override_dlna_features : option string)
    (mime_type dlna_features : string) : Run (string * string) :=
  let mime_type :=
    if negb (PyStr.truthy mime_type) then
      let _type := guess_type (hd "" (PyStr.split "?" media_url)) in
      let mime_type := PyStr.or_else _type "" in
      if negb (PyStr.truthy mime_type)
      then PyStr.or_else default_mime_type "application/octet-stream"
      else mime_type
    else mime_type in
  if negb (opt_truthy override_dlna_features)
     && negb (String.eqb dlna_features "*")
     && has_get_protocol_info self
  then
    protocol_info_entries <-
      _async_get_sink_protocol_info_for_mime_type self mime_type ;;
    dlna_features <- widen_dlna_features protocol_info_entries dlna_features ;;
    ret (mime_type, dlna_features)
  else ret (mime_type, dlna_features).

(** What the headers of the resource give for [mime_type] and
    [dlna_features]. *)
Definition headers_mime_type_and_features
    (override_mime_type override_dlna_features : option string)
    (mime_type dlna_features : string)
    (headers : option (gmap string string)) : string * string :=
  match headers with
  | Some headers =>
      if bool_decide (headers = ∅) then (mime_type, dlna_features)
      else
        (match headers !! "Content-Type" with
         | Some ct => if negb (opt_truthy override_mime_type) then ct else mime_type
         | None => mime_type
         end,
         match headers !! "ContentFeatures.dlna.org" with
         | Some cf => if negb (opt_truthy override_dlna_features) then cf
                      else dlna_features
         | None => dlna_features
         end)
  | None => (mime_type, dlna_features)
  end.

(** [200 <= status < 300] *)
Definition success (status : Z) : bool :=
  (200 <=? status)%Z && (status <? 300)%Z.

(** ** Setting the transport URI *)

(** [urllib.parse.ParseResult] *)
Record ParseResult := mkParseResult {
  scheme : string;
  netloc : string;
  path : string;
  params : string;
  query : string;
  fragment : string
}.

(** The [meta_data] argument: [Union[None, str, Mapping]]. *)
Inductive MetaDataArg :=
| MetaNone
| MetaStr (didl : string)
| MetaMapping (m : gmap string string).

Section TransportUri.

Variable async_http_request :
  string -> string -> gmap string string -> HttpResult.
Variable guess_type : string -> option string.
Variable MIME_TO_UPNP_CLASS_MAPPING : list (string * string).
Variable type_by_upnp_class : string -> option DidlType.
Variable to_xml_string : DidlObject -> string.

(** [urllib.parse.urlparse], [urlunparse] and [quote_plus] *)
Variable urlparse : string -> ParseResult.
Variable urlunparse : list string -> string.
Variable quote_plus : string -> string.

(** The escaping of [media_url] both setters start with: the query is
    quoted, the parameters and the fragment are dropped. *)
Definition escape_media_url (media_url : string) : string :=
  let media_url_parts := urlparse media_url in
  urlunparse
    [scheme media_url_parts; netloc media_url_parts; path media_url_parts;
     ""; quote_plus (query media_url_parts); ""].

(** [if not isinstance(meta_data, str): meta_data = await
    self.construct_play_media_metadata(media_url, media_title,
    meta_data=meta_data)] *)
Definition queue_meta_data (self : DmrDevice) (media_url media_title : string)
    (meta_data : MetaDataArg) : Run string :=
  match meta_data with
  | MetaStr didl => ret didl
  | MetaNone =>
      construct_play_media_metadata async_http_request guess_type
        MIME_TO_UPNP_CLASS_MAPPING type_by_upnp_class to_xml_string
        self media_url media_title None None None None None None
  | MetaMapping m =>
      construct_play_media_metadata async_http_request guess_type
        MIME_TO_UPNP_CLASS_MAPPING type_by_upnp_class to_xml_string
        self media_url media_title None None None None None (Some m)
  end.

(** [DmrDevice.async_set_transport_uri] *)
Definition async_set_transport_uri (self : DmrDevice)
    (media_url media_title : string) (meta_data : MetaDataArg) : Run unit :=
  emit (LogDebug ("Set transport uri: " +:+ media_url)) ;;;
  let media_url := escape_media_url media_url in
  meta_data <- queue_meta_data self media_url media_title meta_data ;;
  match _action self "AVT" "SetAVTransportURI" with
  | None => raise (UpnpError "Missing action AVT/SetAVTransportURI")
  | Some action =>
      emit (ActionCall "AVT" "SetAVTransportURI"
              [("InstanceID", ArgInt 0); ("CurrentURI", ArgStr media_url);
               ("CurrentURIMetaData", ArgStr meta_data)])
  end.

(** [DmrDevice.async_set_next_transport_uri] *)
Definition async_set_next_transport_uri (self : DmrDevice)
    (media_url media_title : string) (meta_data : MetaDataArg) : Run unit :=
  emit (LogDebug ("Set transport uri: " +:+ media_url)) ;;;
  let media_url := escape_media_url media_url in
  meta_data <- queue_meta_data self media_url media_title meta_data ;;
  match _action self "AVT" "SetNextAVTransportURI" with
  | None => raise (UpnpError "Missing action AVT/SetNextAVTransportURI")
  | Some action =>
      emit (ActionCall "AVT" "SetNextAVTransportURI"
              [("InstanceID", ArgInt 0); ("NextURI", ArgStr media_url);
               ("NextURIMetaData", ArgStr meta_data)])
  end.

End TransportUri.

(** [DmrDevice.has_play_media] *)
Definition has_play_media (self : DmrDevice) : bool :=
  bool_decide (is_Some (_action self "AVT" "SetAVTransportURI")).

(** [DmrDevice.has_next_transport_uri] *)
Definition has_next_transport_uri (self : DmrDevice) : bool :=
  bool_decide (is_Some (_state_variable_AVT self "NextAVTransportURI"))
  && bool_decide (is_Some (_action self "AVT" "SetNextAVTransportURI")).

(** What [async_set_next_transport_uri] does where [async_set_transport_uri]
    invokes its action. *)
Definition as_next_uri (ef : Effect) : Effect :=
  match ef with
  | ActionCall "AVT" "SetAVTransportURI"
      [("InstanceID", i); ("CurrentURI", u); ("CurrentURIMetaData", m)] =>
      ActionCall "AVT" "SetNextAVTransportURI"
        [("InstanceID", i); ("NextURI", u); ("NextURIMetaData", m)]
  | _ => ef
  end.

(** What the builder does besides computing: requests to the resource and
    the one query of the device's protocol info. *)
Definition builder_effect (media_url : string) (ef : Effect) : Prop :=
  (∃ method, ef = HttpRequest method media_url)
  ∨ ef = ActionCall "CM" "GetProtocolInfo" [].

(** ** The URIs and the playlist title *)

(** [DmrDevice.current_track_uri] *)
Definition current_track_uri (self : DmrDevice) : Run (option string) :=
  match _state_variable_AVT self "CurrentTrackURI" with
  | None => raise (UpnpError "Missing StateVariable AVT/CurrentTrackURI")
  | Some state_var => ret (value state_var)
  end.

(** [DmrDevice.av_transport_uri] *)
Definition av_transport_uri (self : DmrDevice) : Run (option string) :=
  match _state_variable_AVT self "AVTransportURI" with
  | None => raise (UpnpError "Missing StateVariable AVT/AVTransportURI")
  | Some state_var => ret (value state_var)
  end.

(** [DmrDevice.media_playlist_title] *)
Definition media_playlist_title (self : DmrDevice) : Run AttrValue :=
  transport <- av_transport_uri self ;;
  track <- current_track_uri self ;;
  if bool_decide (transport = track) then
    (* A single track is playing, no playlist to report *)
    ret AttrNone
  else ret (_get_av_transport_meta_data self "title").

(** ** Reconciliation *)

Inductive UpdateEffect :=
| PollStateVariables (service : string) (actions : list string)
    (args : list (string * PyArg))
| Ping.

Section Update.

(** How the answers to a poll change the state variables of the device;
    [_async_poll_state_variables] is the profile base class's. *)
Variable poll : string -> list string -> DmrDevice -> DmrDevice.

Definition _async_poll_state_variables (service : string)
    (actions : list string) (args : list (string * PyArg)) (self : DmrDevice)
    : list UpdateEffect * DmrDevice :=
  ([PollStateVariables service actions args], poll service actions self).

(** [DmrDevice.async_update]; [avt_service] is [self._service("AVT")]
    being there, [is_subscribed] the subscription flag of the profile. A
    poll of one action, which the source names by a plain string, is
    written as a poll of a one-element list. *)
Definition async_update (avt_service is_subscribed : bool) (self : DmrDevice)
    (do_ping : bool) : list UpdateEffect * DmrDevice :=
  if avt_service then
    let '(t1, self) :=
      if negb is_subscribed || do_ping then
        _async_poll_state_variables "AVT" ["GetTransportInfo"]
          [("InstanceID", ArgInt 0)] self
      else ([], self) in
    let '(t2, self) :=
      match transport_state self with
      | Some PLAYING | Some PAUSED_PLAYBACK =>
          _async_poll_state_variables "AVT" ["GetPositionInfo"]
            [("InstanceID", ArgInt 0)] self
      | _ => ([], self)
      end in
    let '(t3, self) :=
      if negb is_subscribed then
        let '(ta, self) :=
          _async_poll_state_variables "AVT"
            ["GetMediaInfo"; "GetDeviceCapabilities"; "GetTransportSettings"]
            [("InstanceID", ArgInt 0)] self in
        let '(tb, self) :=
          _async_poll_state_variables "RC" ["GetMute"; "GetVolume"]
            [("InstanceID", ArgInt 0); ("Channel", ArgStr "Master")] self in
        ((ta ++ tb)%list, self)
      else ([], self) in
    ((t1 ++ t2 ++ t3)%list, self)
  else if do_ping then ([Ping], self)
  else ([], self).

End Update.

(** ** Waiting for play *)




(** ** Comma-separated lists *)

(** [sep.join(l)] for a one-character separator. *)
Fixpoint join (sep : ascii) (l : list string) : string :=
  match l with
  | [] => EmptyString
  | [s] => s
  | s :: rest => s +:+ String sep (join sep rest)
  end.

(** [DmrDevice.preset_names]; [rc_text_variables] are the RenderingControl
    state variables of type string. *)
Definition preset_names (rc_text_variables : gmap string (UpnpStateVariable string))
    : Run (list string) :=
  match rc_text_variables !! "PresetNameList" with
  | None => raise (UpnpError "Missing StateVariable RC/PresetNameList")
  | Some state_var =>
      match value state_var with
      | None =>
          emit (LogDebug "Got no value for PresetNameList") ;;;
          ret []
      | Some v => ret (map PyStr.strip (PyStr.split "," v))
      end
  end.

Module SampleUrl.

(** Stand-ins for [urllib.parse]: a URL split at its first ["?"], put
    together again, and a quoting that maps a space to ["+"]. *)
Definition urlparse (url : string) : ParseResult :=
  {| scheme := ""; netloc := ""; path := hd "" (PyStr.split "?" url);
     params := ""; query := PyStr.after_first "?" url; fragment := "" |}.

Definition urlunparse (parts : list string) : string :=
  match parts with
  | [s; n; p; _; q; _] =>
      s +:+ n +:+ p +:+ (if PyStr.truthy q then "?" +:+ q else "")
  | _ => ""
  end.

Fixpoint quote_plus (s : string) : string :=
  match s with
  | EmptyString => EmptyString
  | String c s' =>
      String (if Ascii.eqb c " " then "+"%char else c) (quote_plus s')
  end.

End SampleUrl.

(** * Properties *)

(** ** Change decoder *)

Section Decoder.

Implicit Types (elems : list (string * gmap string string)).
Implicit Types (c : gmap string (gmap string string)).
Implicit Types (m : gmap string string).

(** One variable element inside the scope of instance [i]. *)
Lemma handle_element i c e :
  variable_element e → PyStr.truthy i = true →
  fold_left handle (element_events e)
    {| changes := c; _current_instance := Some i |}
  = {| changes :=
         <[i := entries_from (default ∅ (c !! i)) [e]]> c;
       _current_instance := Some i |}.
Proof.
  intros [[v Hv] Hname] Hi. destruct e as [name attrs]; simpl in *.
  unfold startElement, endElement. rewrite Hv.
  assert (String.eqb name "InstanceID" = false) as ->
    by (apply String.eqb_neq; exact Hname).
  cbn [_current_instance changes PyStr.or_else]. rewrite Hi.
  unfold entries_from, master_channel, local_name. cbn [fold_left fst snd].
  destruct (c !! i) as [mi|] eqn:Hc; simpl;
    destruct (attrs !! "channel") as [ch|]; simpl;
    try destruct (String.eqb ch "Master"); simpl;
    rewrite ?lookup_insert_eq, ?insert_insert_eq, ?Hc; simpl;
    try reflexivity.
  rewrite insert_id; [reflexivity | exact Hc].
Qed.

Lemma entries_from_app m elems1 elems2 :
  entries_from m (elems1 ++ elems2) = entries_from (entries_from m elems1) elems2.
Proof. unfold entries_from. apply fold_left_app. Qed.

(** All the elements of the scope. *)
Lemma handle_elements i elems : ∀ c,
  Forall variable_element elems → PyStr.truthy i = true → elems ≠ [] →
  fold_left handle (flat_map element_events elems)
    {| changes := c; _current_instance := Some i |}
  = {| changes := <[i := entries_from (default ∅ (c !! i)) elems]> c;
       _current_instance := Some i |}.
Proof.
  induction elems as [|e elems IH]; intros c Hall Hi Hne; [done|].
  inversion Hall as [|? ? He Hrest]; subst.
  change (flat_map element_events (e :: elems))
    with (element_events e ++ flat_map element_events elems)%list.
  rewrite fold_left_app, (handle_element i c e He Hi).
  destruct elems as [|e' elems'].
  - reflexivity.
  - rewrite IH by done.
    rewrite lookup_insert_eq, insert_insert_eq. reflexivity.
Qed.

Lemma handle_scope_open i :
  fold_left handle
    [StartElement "Event" {[ "xmlns" := "urn:schemas-upnp-org:metadata-1-0/AVT/" ]};
     StartElement "InstanceID" {[ "val" := i ]}]
    handler_init
  = {| changes := ∅; _current_instance := Some i |}.
Proof.
  cbn [fold_left handle]. unfold startElement.
  rewrite (lookup_singleton_ne "xmlns" "val") by done.
  rewrite lookup_singleton_eq. reflexivity.
Qed.

Lemma single_scope_payload_split i elems :
  single_scope_payload i elems
  = ([StartElement "Event" {[ "xmlns" := "urn:schemas-upnp-org:metadata-1-0/AVT/" ]};
      StartElement "InstanceID" {[ "val" := i ]}]
     ++ flat_map element_events elems
     ++ [EndElement "InstanceID"; EndElement "Event"])%list.
Proof. reflexivity. Qed.

Lemma parse_single_scope_nonempty i elems :
  Forall variable_element elems → PyStr.truthy i = true → elems ≠ [] →
  _parse_last_change_event (single_scope_payload i elems)
  = {[ i := entries_from ∅ elems ]}.
Proof.
  intros Hall Hi Hne. unfold _parse_last_change_event.
  rewrite single_scope_payload_split, !fold_left_app, handle_scope_open.
  rewrite handle_elements by done.
  cbn. rewrite lookup_empty. cbn. apply insert_empty.
Qed.






End Decoder.




(** ** Case folding *)

Section CaseFolding.

Lemma upper_lower_char c : PyStr.upper_char (PyStr.lower_char c) = PyStr.upper_char c.
Proof. destruct c as [[] [] [] [] [] [] [] []]; reflexivity. Qed.

Lemma lower_upper_char c : PyStr.lower_char (PyStr.upper_char c) = PyStr.lower_char c.
Proof. destruct c as [[] [] [] [] [] [] [] []]; reflexivity. Qed.

Lemma upper_lower s : PyStr.upper (PyStr.lower s) = PyStr.upper s.
Proof. induction s as [|c s IH]; cbn; [|rewrite upper_lower_char, IH]; reflexivity. Qed.

Lemma lower_upper s : PyStr.lower (PyStr.upper s) = PyStr.lower s.
Proof. induction s as [|c s IH]; cbn; [|rewrite lower_upper_char, IH]; reflexivity. Qed.





Lemma PlayMode_getitem_names raw m :
  PlayMode_getitem (PyStr.upper (PyStr.strip raw)) = Some m
  ↔ names_member raw (PlayMode_name m).
Proof.
  unfold names_member. split.
  - intros H. unfold PlayMode_getitem in H.
    apply find_some in H as [_ H]. apply String.eqb_eq in H.
    rewrite H, lower_upper. reflexivity.
  - intros H. rewrite <- upper_lower, H, upper_lower.
    destruct m; reflexivity.
Qed.

End CaseFolding.

(** ** State reader *)



(** The same for the play mode. *)
Lemma play_mode_total (self : DmrDevice) :
  (_state_variable_AVT self "CurrentPlayMode" = None → play_mode self = None)
  ∧ (∀ state_var,
       _state_variable_AVT self "CurrentPlayMode" = Some state_var →
       let raw := PyStr.or_else (value state_var) "" in
       (∀ m, names_member raw (PlayMode_name m) → play_mode self = Some m)
       ∧ ((∀ m, ¬ names_member raw (PlayMode_name m)) →
          play_mode self = Some PM_VENDOR_DEFINED)).
Proof.
  unfold play_mode. split.
  - intros ->. reflexivity.
  - intros state_var Hsv. rewrite Hsv. cbv zeta. split.
    + intros m Hm. apply PlayMode_getitem_names in Hm. rewrite Hm. reflexivity.
    + intros Hno. destruct (PlayMode_getitem _) as [m|] eqn:Hm; [|reflexivity].
      apply PlayMode_getitem_names in Hm. destruct (Hno m Hm).
Qed.

(** *** Action permission *)

Section Permission.

Lemma str_in_elem a l : str_in a l = true ↔ a ∈ l.
Proof.
  unfold str_in. rewrite existsb_exists. split.
  - intros (x & Hin & Heq). apply String.eqb_eq in Heq. subst x.
    apply list_elem_of_In. exact Hin.
  - intros Hin. exists a. split; [apply list_elem_of_In; exact Hin|].
    apply String.eqb_refl.
Qed.

Lemma has_current_transport_actions_spec self :
  _has_current_transport_actions self = true ↔ actions_published self.
Proof.
  unfold _has_current_transport_actions, actions_published.
  destruct (_state_variable_AVT self "CurrentTransportActions") as [sv|].
  - rewrite orb_true_iff, !bool_decide_eq_true. split.
    + intros H. exists sv. done.
    + intros (sv' & [= <-] & H). exact H.
  - split; [discriminate|]. intros (sv' & [=] & _).
Qed.

Lemma current_transport_actions_spec self a :
  str_in a (_current_transport_actions self) = true ↔ action_listed self a.
Proof.
  rewrite str_in_elem. unfold _current_transport_actions, action_listed.
  destruct (_state_variable_AVT self "CurrentTransportActions") as [sv|].
  - rewrite list_elem_of_In, in_map_iff. split.
    + intros (e & He & Hin). exists sv, e.
      rewrite list_elem_of_In. done.
    + intros (sv' & e & [= <-] & Hin & He). exists e.
      rewrite <- list_elem_of_In. done.
  - split; [intros H; inversion H|]. intros (sv' & e & [=] & _).
Qed.

Lemma can_transport_action_spec self a :
  _can_transport_action self a = true ↔ permitted self a.
Proof.
  unfold _can_transport_action, permitted.
  rewrite orb_true_iff, negb_true_iff, current_transport_actions_spec.
  rewrite <- has_current_transport_actions_spec.
  destruct (_has_current_transport_actions self); intuition congruence.
Qed.

Lemma has_seek_with_mode_spec self mode :
  _has_seek_with_mode self mode = true
  ↔ exposed self "Seek" ∧ seek_mode_allowed self mode.
Proof.
  unfold _has_seek_with_mode, exposed, seek_mode_allowed.
  destruct (_action self "AVT" "Seek") as [act|]; cycle 1.
  { split; [discriminate|]. intros [[? [=]] _]. }
  destruct (_state_variable_AVT self "A_ARG_TYPE_SeekMode") as [sv|]; cycle 1.
  { split; [discriminate|]. intros [_ (? & ? & [=] & _)]. }
  rewrite str_in_elem, list_elem_of_In, in_map_iff. split.
  - intros (m & Hm & Hin). split; [eexists; reflexivity|].
    exists sv, m. rewrite list_elem_of_In. done.
  - intros [_ (sv' & m & [= <-] & Hin & Hm)]. exists m.
    rewrite <- list_elem_of_In. done.
Qed.

End Permission.

(** C3 (amended). For pause, play, stop, next and previous, the [can_*]
    predicate holds exactly when the action is exposed by the AVT service
    and is permitted: the current-actions variable is not published, or
    the action's lower-cased name is in its comma-separated list. The two
    seek predicates need more than the Seek action: the seek-mode variable
    must also list their mode. With the list "Play,Stop", [can_pause] is
    false and [can_stop] is true when Stop is exposed; without the
    variable, [can_pause] is true whenever Pause is exposed. *)
Theorem can_transport_action_permitted (self : DmrDevice) :
  (can_pause self = true ↔ exposed self "Pause" ∧ permitted self "pause")
  ∧ (can_play self = true ↔ exposed self "Play" ∧ permitted self "play")
  ∧ (can_stop self = true ↔ exposed self "Stop" ∧ permitted self "stop")
  ∧ (can_next self = true ↔ exposed self "Next" ∧ permitted self "next")
  ∧ (can_previous self = true
     ↔ exposed self "Previous" ∧ permitted self "previous")
  ∧ (can_seek_abs_time self = true
     ↔ exposed self "Seek" ∧ seek_mode_allowed self "ABS_TIME"
       ∧ permitted self "seek")
  ∧ (can_seek_rel_time self = true
     ↔ exposed self "Seek" ∧ seek_mode_allowed self "REL_TIME"
       ∧ permitted self "seek")
  ∧ (∀ state_var,
       _state_variable_AVT self "CurrentTransportActions" = Some state_var →
       value state_var = Some "Play,Stop" →
       can_pause self = false
       ∧ (exposed self "Stop" → can_stop self = true))
  ∧ (_state_variable_AVT self "CurrentTransportActions" = None →
     exposed self "Pause" → can_pause self = true).
Proof.
  unfold can_pause, can_play, can_stop, can_next, can_previous,
    can_seek_abs_time, can_seek_rel_time,
    has_pause, has_play, has_stop, has_next, has_previous,
    has_seek_abs_time, has_seek_rel_time, exposed.
  repeat match goal with
         | |- (_ = true ↔ _) ∧ _ =>
             split;
             [rewrite andb_true_iff, ?bool_decide_eq_true,
                can_transport_action_spec, ?has_seek_with_mode_spec;
              unfold exposed; tauto|]
         end.
  split.
  - intros state_var Hsv Hval.
    unfold _can_transport_action, _current_transport_actions,
      _has_current_transport_actions.
    rewrite Hsv, Hval. cbn. split; [apply andb_false_r|].
    intros Hstop. rewrite bool_decide_eq_true_2 by exact Hstop. reflexivity.
  - intros Hsv Hpause.
    unfold _can_transport_action, _current_transport_actions,
      _has_current_transport_actions.
    rewrite Hsv. cbn. rewrite bool_decide_eq_true_2 by exact Hpause. reflexivity.
Qed.

Lemma can_transport_action_permitted_witness :
  can_pause Sample.playing = false
  ∧ can_stop Sample.playing = true
  ∧ can_pause (Sample.device [] [] [("AVT", "Pause", Sample.no_arguments)]) = true.
Proof.
  destruct (can_transport_action_permitted Sample.playing)
    as (_ & _ & _ & _ & _ & _ & _ & Hlist & _).
  destruct (can_transport_action_permitted
              (Sample.device [] [] [("AVT", "Pause", Sample.no_arguments)]))
    as (_ & _ & _ & _ & _ & _ & _ & _ & Habsent).
  destruct (Hlist (Sample.string_variable "CurrentTransportActions"
                     (Some "Play,Stop")))
    as [Hpause Hstop]; [reflexivity | reflexivity |].
  split; [exact Hpause|]. split.
  - apply Hstop. eexists. reflexivity.
  - apply Habsent; [reflexivity|]. eexists. reflexivity.
Defined.

(** C3, as stated, fails for seek: a device that exposes Seek and
    publishes no current actions, but has no seek-mode variable, cannot
    seek by absolute time. *)
Lemma can_seek_needs_more_than_the_action :
  ¬ (can_seek_abs_time Sample.seek_only = true
     ↔ exposed Sample.seek_only "Seek" ∧ permitted Sample.seek_only "seek").
Proof.
  intros [_ H].
  assert (can_seek_abs_time Sample.seek_only = true) as Hcan.
  { apply H. split.
    - eexists. reflexivity.
    - left. intros (sv & Hsv & _). discriminate Hsv. }
  discriminate Hcan.
Qed.

(** ** Transport commands *)

Section Commands.

Variable time_to_str : timedelta -> string.

Ltac run_cases c :=
  destruct c; cbn [run_command permission_name action_name] in *;
  unfold async_pause, async_play, async_stop, async_next, async_previous,
    async_seek_abs_time, async_seek_rel_time.

(** What a command does when the permission check fails: one debug line. *)
Lemma run_command_not_permitted self c :
  _can_transport_action self (permission_name c) = false →
  ∃ msg, run_command time_to_str self c = ([LogDebug msg], Returned tt).
Proof.
  intros H. run_cases c; rewrite H; cbn; eexists; reflexivity.
Qed.

(** What a command does when the check passes and the action is missing. *)
Lemma run_command_missing_action self c :
  _can_transport_action self (permission_name c) = true →
  _action self "AVT" (action_name c) = None →
  run_command time_to_str self c
  = ([], Raised (UpnpError ("Missing action AVT/" +:+ action_name c))).
Proof.
  intros H Hact. run_cases c; rewrite H, Hact; reflexivity.
Qed.

End Commands.

(** C8. When the permission check of a transport command fails, the
    command returns without raising and invokes no device action: it only
    logs. *)
Theorem command_without_permission_is_noop
    (time_to_str : timedelta -> string) (self : DmrDevice) (c : TransportCommand) :
  _can_transport_action self (permission_name c) = false →
  let r := run_command time_to_str self c in
  outcome r = Returned tt
  ∧ List.filter is_action_call (effects r) = []
  ∧ ∃ msg, effects r = [LogDebug msg].
Proof.
  intros H r. subst r.
  destruct (run_command_not_permitted time_to_str self c H) as [msg ->].
  cbn. split; [reflexivity|]. split; [reflexivity|]. exists msg. reflexivity.
Qed.

Lemma command_without_permission_is_noop_witness :
  _can_transport_action Sample.playing "pause" = false
  ∧ outcome (run_command (λ _, "0:00:00") Sample.playing CmdPause) = Returned tt
  ∧ List.filter is_action_call
      (effects (run_command (λ _, "0:00:00") Sample.playing CmdPause)) = [].
Proof.
  split; [reflexivity|].
  pose proof (command_without_permission_is_noop (λ _, "0:00:00")
                Sample.playing CmdPause eq_refl) as (Hout & Hcalls & _).
  split; [exact Hout | exact Hcalls].
Defined.

(** C10. When the permission check of a transport command passes and the
    device does not expose the AVT action, the command raises [UpnpError]
    and does nothing else. *)
Theorem command_with_missing_action_raises
    (time_to_str : timedelta -> string) (self : DmrDevice) (c : TransportCommand) :
  _can_transport_action self (permission_name c) = true →
  _action self "AVT" (action_name c) = None →
  let r := run_command time_to_str self c in
  outcome r = Raised (UpnpError ("Missing action AVT/" +:+ action_name c))
  ∧ effects r = [].
Proof.
  intros H Hact r. subst r.
  rewrite (run_command_missing_action time_to_str self c H Hact).
  split; reflexivity.
Qed.

Lemma command_with_missing_action_raises_witness :
  _can_transport_action Sample.seek_only "next" = true
  ∧ _action Sample.seek_only "AVT" "Next" = None
  ∧ outcome (run_command (λ _, "0:00:00") Sample.seek_only CmdNext)
    = Raised (UpnpError "Missing action AVT/Next").
Proof.
  split; [reflexivity|]. split; [reflexivity|].
  exact (proj1 (command_with_missing_action_raises (λ _, "0:00:00")
                  Sample.seek_only CmdNext eq_refl eq_refl)).
Defined.

(** ** Levels *)

Section Levels.

Local Open Scope Q_scope.

Lemma py_int_ge (lo : Z) (x : Q) : inject_Z lo <= x → (lo <= py_int x)%Z.
Proof.
  destruct x as [n d]. unfold Qle, py_int. cbn [Qnum Qden inject_Z].
  intros H. destruct (Z_lt_le_dec n 0) as [Hn|Hn].
  - replace n with (- - n)%Z by lia.
    rewrite Z.quot_opp_l by lia.
    rewrite Z.quot_div_nonneg by lia.
    assert ((- n) / Z.pos d <= - lo)%Z; [|lia].
    apply Z.div_le_upper_bound; lia.
  - rewrite Z.quot_div_nonneg by lia.
    apply Z.div_le_lower_bound; lia.
Qed.

Lemma py_int_le (hi : Z) (x : Q) : x <= inject_Z hi → (py_int x <= hi)%Z.
Proof.
  destruct x as [n d]. unfold Qle, py_int. cbn [Qnum Qden inject_Z].
  intros H. destruct (Z_lt_le_dec n 0) as [Hn|Hn].
  - replace n with (- - n)%Z by lia.
    rewrite Z.quot_opp_l by lia.
    rewrite Z.quot_div_nonneg by lia.
    assert (- hi <= (- n) / Z.pos d)%Z; [|lia].
    apply Z.div_le_lower_bound; lia.
  - rewrite Z.quot_div_nonneg by lia.
    apply Z.div_le_upper_bound; lia.
Qed.




End Levels.




(** ** Dispatch of a LastChange notification *)




(** ** Sentinel and empty values *)

(** C9 (amended). The media duration and position, and the two cached
    metadata items with their accessors, take the sentinel
    ["NOT_IMPLEMENTED"] and the empty string for an absent value: they
    give their absent result. The transport state and the play mode do
    not: for a present variable with such a value they give
    VENDOR_DEFINED, where an absent variable gives [None]. *)
Theorem sentinel_or_empty_reads
    (str_to_time : string -> option timedelta)
    (from_xml_string : string -> list DidlItem)
    (self : DmrDevice) (state_var : UpnpStateVariable string) (raw : string) :
  str_to_time "" = None →
  raw = "NOT_IMPLEMENTED" ∨ raw = "" →
  value state_var = Some raw →
  (_state_variable_AVT self "CurrentTrackDuration" = Some state_var →
   media_duration str_to_time self = None
   ∧ media_duration str_to_time
       (without_avt_variable "CurrentTrackDuration" self) = None)
  ∧ (_state_variable_AVT self "RelativeTimePosition" = Some state_var →
     media_position str_to_time self = None
     ∧ media_position str_to_time
         (without_avt_variable "RelativeTimePosition" self) = None)
  ∧ (let self' := _update_current_track_meta_data from_xml_string self state_var in
     _current_track_meta_data self' = None
     ∧ media_class self' = None
     ∧ media_title self' = AttrNone
     ∧ media_artist self' = AttrNone
     ∧ ∀ attr, _get_current_track_meta_data self' attr = AttrNone)
  ∧ (let self' := _update_av_transport_uri_metadata from_xml_string self state_var in
     _av_transport_uri_meta_data self' = None
     ∧ ∀ attr, _get_av_transport_meta_data self' attr = AttrNone)
  ∧ (_state_variable_AVT self "TransportState" = Some state_var →
     transport_state self = Some VENDOR_DEFINED
     ∧ transport_state (without_avt_variable "TransportState" self) = None)
  ∧ (_state_variable_AVT self "CurrentPlayMode" = Some state_var →
     play_mode self = Some PM_VENDOR_DEFINED
     ∧ play_mode (without_avt_variable "CurrentPlayMode" self) = None).
Proof.
  intros Hempty Hraw Hval.
  assert (∀ name, _state_variable_AVT (without_avt_variable name self) name = None)
    as Hdel by (intros name; apply lookup_delete_eq).
  split; [|split; [|split; [|split; [|split]]]].
  - intros Hsv. unfold media_duration. rewrite Hdel, Hsv, Hval.
    destruct Hraw as [-> | ->]; [done|]. cbn. rewrite Hempty. done.
  - intros Hsv. unfold media_position. rewrite Hdel, Hsv, Hval.
    destruct Hraw as [-> | ->]; [done|]. cbn. rewrite Hempty. done.
  - unfold _update_current_track_meta_data. rewrite Hval.
    destruct Hraw as [-> | ->]; cbn; done.
  - unfold _update_av_transport_uri_metadata. rewrite Hval.
    destruct Hraw as [-> | ->]; cbn; done.
  - intros Hsv. unfold transport_state. rewrite Hdel, Hsv, Hval.
    destruct Hraw as [-> | ->]; done.
  - intros Hsv. unfold play_mode. rewrite Hdel, Hsv, Hval.
    destruct Hraw as [-> | ->]; done.
Qed.

Lemma sentinel_or_empty_reads_witness :
  media_duration SampleTime.str_to_time Sample.not_implemented = None
  ∧ transport_state Sample.not_implemented = Some VENDOR_DEFINED.
Proof.
  pose proof (sentinel_or_empty_reads SampleTime.str_to_time (λ _, [])
                Sample.not_implemented
                (Sample.string_variable "CurrentTrackDuration" (Some "NOT_IMPLEMENTED"))
                "NOT_IMPLEMENTED" eq_refl (or_introl eq_refl) eq_refl)
    as (Hd & _).
  pose proof (sentinel_or_empty_reads SampleTime.str_to_time (λ _, [])
                Sample.not_implemented
                (Sample.string_variable "TransportState" (Some "NOT_IMPLEMENTED"))
                "NOT_IMPLEMENTED" eq_refl (or_introl eq_refl) eq_refl)
    as (_ & _ & _ & _ & Ht & _).
  split.
  - apply Hd. reflexivity.
  - apply Ht. reflexivity.
Defined.

(** C9, as stated, fails for the transport state: the sentinel reads as
    VENDOR_DEFINED, an absent variable as [None]. *)
Lemma transport_state_sentinel_is_not_absent :
  transport_state Sample.not_implemented = Some VENDOR_DEFINED
  ∧ transport_state (without_avt_variable "TransportState" Sample.not_implemented)
    = None
  ∧ ¬ sentinel_reads_as_absent transport_state "TransportState".
Proof.
  split; [reflexivity|]. split; [reflexivity|].
  intros H.
  specialize (H Sample.not_implemented
                (Sample.string_variable "TransportState" (Some "NOT_IMPLEMENTED"))
                eq_refl (or_introl eq_refl)).
  discriminate H.
Qed.

(** ** Media descriptor builder *)

Section BuilderProperties.

Variable async_http_request :
  string -> string -> gmap string string -> HttpResult.
Variable guess_type : string -> option string.
Variable table : list (string * string).
Variable type_by_upnp_class : string -> option DidlType.
Variable to_xml_string : DidlObject -> string.

Variable self : DmrDevice.
Variables media_url media_title : string.
Variables default_mime_type default_upnp_class : option string.
Variable meta_data : option (gmap string string).

Local Abbreviation construct :=
  (construct_play_media_metadata async_http_request guess_type table
     type_by_upnp_class to_xml_string self media_url media_title
     default_mime_type default_upnp_class None None None meta_data).

Local Abbreviation fetch :=
  (_fetch_headers async_http_request media_url
     {[ "GetContentFeatures.dlna.org" := "1" ]}).

Local Abbreviation probed :=
  (probe async_http_request guess_type self media_url default_mime_type
     None None "" "*").

Local Abbreviation fallback :=
  (fallback_mime_type guess_type media_url default_mime_type).

Local Abbreviation class_of := (resolved_upnp_class table default_upnp_class).

(** The builder after the probe. *)
Lemma construct_after_probe t mime_type dlna_features :
  probed = (t, Returned (mime_type, dlna_features)) →
  construct
  = (t, match type_by_upnp_class (class_of (PyStr.lower mime_type)) with
        | Some didl_item_type =>
            Returned (to_xml_string
                        (build_item didl_item_type media_url media_title
                           (PyStr.lower mime_type) dlna_features
                           (default ∅ meta_data)))
        | None => Raised (UpnpError "Unknown DIDL-lite type")
        end).
Proof.
  intros Hp. unfold construct_play_media_metadata, resolved_upnp_class. cbn [PyStr.or_else is_None orb opt_truthy negb].
  rewrite Hp. cbn [bind].
  destruct (type_by_upnp_class _); cbn; rewrite app_nil_r; reflexivity.
Qed.

(** The probe when the resource announces no features: nothing is asked
    of the device. *)
Lemma probe_without_features t h :
  catch_all fetch None = (t, Returned h) →
  (∀ headers, h = Some headers → headers !! "ContentFeatures.dlna.org" = None) →
  probed
  = (t, Returned
          (match h with
           | Some headers =>
               match headers !! "Content-Type" with
               | Some ct => if PyStr.truthy ct then ct else fallback
               | None => fallback
               end
           | None => fallback
           end, "*")).
Proof.
  intros Hf Hcf. unfold probe, fallback_mime_type. rewrite Hf.
  cbn [bind opt_truthy negb].
  destruct h as [headers|]; cbn.
  - rewrite (Hcf headers eq_refl).
    destruct (bool_decide (headers = ∅)) eqn:Hemp.
    + apply bool_decide_eq_true in Hemp. subst headers.
      rewrite lookup_empty. cbn.
      destruct (PyStr.truthy _); cbn; rewrite app_nil_r; reflexivity.
    + destruct (headers !! "Content-Type") as [ct|]; cbn;
        [destruct (PyStr.truthy ct); cbn|];
        try destruct (PyStr.truthy _); cbn; rewrite app_nil_r; reflexivity.
  - destruct (PyStr.truthy _); cbn; rewrite app_nil_r; reflexivity.
Qed.

Lemma catch_all_fetch_failed :
  outcome fetch = Returned None ∨ (∃ e, outcome fetch = Raised e) →
  catch_all fetch None = (effects fetch, Returned None).
Proof.
  destruct fetch as [t o]. cbn. intros [-> | [e ->]]; reflexivity.
Qed.

Lemma catch_all_fetch_headers headers :
  outcome fetch = Returned (Some headers) →
  catch_all fetch None = (effects fetch, Returned (Some headers)).
Proof. destruct fetch as [t o]. cbn. intros ->. reflexivity. Qed.

Lemma build_item_resources didl_item_type mime_type dlna_features
    (meta : gmap string string) :
  meta !! "resources" = None →
  attributes (build_item didl_item_type media_url media_title mime_type
                dlna_features meta) !! "resources"
  = Some (AttrResources
            [{| uri := media_url;
                protocol_info :=
                  "http-get:*:" +:+ mime_type +:+ ":" +:+ dlna_features |}]).
Proof.
  intros Hm. unfold build_item. cbn [attributes].
  rewrite lookup_union_r by (rewrite lookup_fmap, Hm; reflexivity).
  rewrite !lookup_insert_ne by done. apply lookup_singleton_eq.
Qed.

(** C5 (amended). Without overrides: when the probe reports content type
    video/mp4 and no feature header, the item handed to the encoder is of
    the class the table gives for video/mp4 and its single resource has
    the protocol info "http-get:*:video/mp4:*". When the probe fails
    entirely, the mime type is the one guessed from the URL up to its
    first "?", and when the guess is empty the caller's default or
    "application/octet-stream". Whatever the probe found, the class is the
    first one of the table whose prefix starts the lower-cased mime type;
    when none does it is the caller's default class, and the generic
    "object.item" only when the caller gave none; a class without an item
    type raises [UpnpError]. *)
Theorem play_media_metadata_without_overrides :
  (∀ headers video_class video_type,
     outcome fetch = Returned (Some headers) →
     headers !! "Content-Type" = Some "video/mp4" →
     headers !! "ContentFeatures.dlna.org" = None →
     class_for_mime_type table "video/mp4" = Some video_class →
     type_by_upnp_class video_class = Some video_type →
     ∃ item,
       outcome construct = Returned (to_xml_string item)
       ∧ didl_type item = video_type
       ∧ (default ∅ meta_data !! "resources" = None →
          attributes item !! "resources"
          = Some (AttrResources
                    [{| uri := media_url;
                        protocol_info := "http-get:*:video/mp4:*" |}])))
  ∧ (outcome fetch = Returned None ∨ (∃ e, outcome fetch = Raised e) →
     ∀ didl_item_type,
       type_by_upnp_class (class_of (PyStr.lower fallback)) = Some didl_item_type →
       outcome construct
       = Returned (to_xml_string
                     (build_item didl_item_type media_url media_title
                        (PyStr.lower fallback) "*" (default ∅ meta_data))))
  ∧ (∀ t mime_type dlna_features,
       probed = (t, Returned (mime_type, dlna_features)) →
       let class := class_of (PyStr.lower mime_type) in
       (∀ didl_item_type,
          type_by_upnp_class class = Some didl_item_type →
          construct
          = (t, Returned (to_xml_string
                            (build_item didl_item_type media_url media_title
                               (PyStr.lower mime_type) dlna_features
                               (default ∅ meta_data)))))
       ∧ (type_by_upnp_class class = None →
          construct = (t, Raised (UpnpError "Unknown DIDL-lite type")))
       ∧ (class_for_mime_type table (PyStr.lower mime_type) = None →
          class = PyStr.or_else default_upnp_class "object.item")
       ∧ (class_for_mime_type table (PyStr.lower mime_type) = None →
          default_upnp_class = None → class = "object.item")).
Proof.
  split; [|split].
  - intros headers video_class video_type Hf Hct Hcf Hclass Htype.
    pose proof (probe_without_features _ _ (catch_all_fetch_headers _ Hf)) as Hp.
    specialize (Hp ltac:(intros ? [= <-]; exact Hcf)).
    cbv beta iota in Hp. rewrite Hct in Hp. cbn [PyStr.truthy] in Hp.
    rewrite (construct_after_probe _ _ _ Hp).
    unfold resolved_upnp_class.
    change (PyStr.lower "video/mp4") with "video/mp4".
    rewrite Hclass, Htype. eexists. split; [reflexivity|].
    split; [reflexivity|]. intros Hm.
    apply (build_item_resources video_type "video/mp4" "*" _ Hm).
  - intros Hf didl_item_type Htype.
    pose proof (probe_without_features _ _ (catch_all_fetch_failed Hf)) as Hp.
    specialize (Hp ltac:(intros ? [=])). cbv beta iota in Hp.
    rewrite (construct_after_probe _ _ _ Hp).
    rewrite Htype. reflexivity.
  - intros t mime_type dlna_features Hp class.
    pose proof (construct_after_probe _ _ _ Hp) as Hc. fold class in Hc.
    split; [|split; [|split]].
    + intros ty Hty. rewrite Hc, Hty. reflexivity.
    + intros Hty. rewrite Hc, Hty. reflexivity.
    + intros Hnone. subst class. unfold resolved_upnp_class. rewrite Hnone. reflexivity.
    + intros Hnone ->. subst class. unfold resolved_upnp_class. rewrite Hnone. reflexivity.
Qed.

End BuilderProperties.

Lemma play_media_metadata_without_overrides_witness :
  outcome (construct_play_media_metadata
             (SampleBuilder.serving {[ "Content-Type" := "video/mp4" ]})
             SampleBuilder.guess_type SampleBuilder.MIME_TO_UPNP_CLASS_MAPPING
             SampleBuilder.type_by_upnp_class SampleBuilder.to_xml_string
             (SampleBuilder.renderer "" "") SampleBuilder.media_url "Clip"
             None None None None None None)
  = Returned "object.item.videoItem http-get:*:video/mp4:*"
  ∧ outcome (construct_play_media_metadata
               SampleBuilder.unreachable
               SampleBuilder.guess_type SampleBuilder.MIME_TO_UPNP_CLASS_MAPPING
               SampleBuilder.type_by_upnp_class SampleBuilder.to_xml_string
               (SampleBuilder.renderer "" "") SampleBuilder.media_url "Clip"
               None None None None None None)
    = Returned "object.item http-get:*:application/octet-stream:*".
Proof.
  split.
  - destruct (play_media_metadata_without_overrides
                (SampleBuilder.serving {[ "Content-Type" := "video/mp4" ]})
                SampleBuilder.guess_type SampleBuilder.MIME_TO_UPNP_CLASS_MAPPING
                SampleBuilder.type_by_upnp_class SampleBuilder.to_xml_string
                (SampleBuilder.renderer "" "") SampleBuilder.media_url "Clip"
                None None None) as (Hvideo & _).
    destruct (Hvideo {[ "Content-Type" := "video/mp4" ]}
                "object.item.videoItem" (DidlClass "object.item.videoItem"))
      as (item & Hout & Htype & Hres);
      [reflexivity | reflexivity | reflexivity | reflexivity | reflexivity |].
    rewrite Hout. f_equal. unfold SampleBuilder.to_xml_string.
    rewrite Htype, Hres by reflexivity. reflexivity.
  - destruct (play_media_metadata_without_overrides
                SampleBuilder.unreachable
                SampleBuilder.guess_type SampleBuilder.MIME_TO_UPNP_CLASS_MAPPING
                SampleBuilder.type_by_upnp_class SampleBuilder.to_xml_string
                (SampleBuilder.renderer "" "") SampleBuilder.media_url "Clip"
                None None None) as (_ & Hfail & _).
    rewrite (Hfail (or_intror (ex_intro _ HttpError eq_refl))
               (DidlClass "object.item") eq_refl).
    reflexivity.
Defined.

(** C5, as stated, fails on the class fallback: with a caller default
    class, a mime type that matches no prefix resolves to that default,
    not to the generic item class. *)
Lemma unmatched_mime_resolves_to_default_class :
  outcome (construct_play_media_metadata
             SampleBuilder.unreachable
             SampleBuilder.guess_type SampleBuilder.MIME_TO_UPNP_CLASS_MAPPING
             SampleBuilder.type_by_upnp_class SampleBuilder.to_xml_string
             (SampleBuilder.renderer "" "") SampleBuilder.media_url "Clip"
             None (Some "object.item.audioItem") None None None None)
  = Returned "object.item.audioItem http-get:*:application/octet-stream:*"
  ∧ ¬ unmatched_mime_resolves_to_generic
        SampleBuilder.unreachable
        SampleBuilder.guess_type SampleBuilder.MIME_TO_UPNP_CLASS_MAPPING
        SampleBuilder.type_by_upnp_class SampleBuilder.to_xml_string
        (SampleBuilder.renderer "" "") SampleBuilder.media_url "Clip"
        None (Some "object.item.audioItem").
Proof.
  split; [reflexivity|].
  intros H.
  specialize (H [HttpRequest "HEAD" SampleBuilder.media_url]
                "application/octet-stream" "*" (DidlClass "object.item")
                eq_refl eq_refl eq_refl).
  vm_compute in H. discriminate H.
Qed.

(** *** Widening of the feature string *)

(** The builder never looks at the Sink list of the device. *)
Lemma sink_protocol_info_reads_source (self : DmrDevice) (Sink mime_type : string) :
  _async_get_sink_protocol_info_for_mime_type
    {| avt_state_variables := avt_state_variables self;
       rc_state_variables := rc_state_variables self;
       actions := actions self;
       protocol_info_Source := protocol_info_Source self;
       protocol_info_Sink := Sink;
       _current_track_meta_data := _current_track_meta_data self;
       _av_transport_uri_meta_data := _av_transport_uri_meta_data self |}
    mime_type
  = _async_get_sink_protocol_info_for_mime_type self mime_type.
Proof.
  unfold _async_get_sink_protocol_info_for_mime_type, async_get_protocol_info,
    _action. cbn [actions protocol_info_Source protocol_info_Sink].
  destruct (actions self !! ("CM", "GetProtocolInfo")); reflexivity.
Qed.

(** C6 (the code at the failing input). The resource announces the
    features "DLNA.ORG_OP=01" for video/mp4. A renderer whose Sink list
    accepts anything for video/mp4, and whose Source list is empty, is
    asked for its protocol info, and the features are not widened; a
    renderer with the accept-any entry in its Source list and an empty
    Sink list gets them widened. *)
Theorem features_widened_from_source_list :
  construct_play_media_metadata
    (SampleBuilder.serving SampleBuilder.video_with_features)
    SampleBuilder.guess_type SampleBuilder.MIME_TO_UPNP_CLASS_MAPPING
    SampleBuilder.type_by_upnp_class SampleBuilder.to_xml_string
    (SampleBuilder.renderer "" "http-get:*:video/mp4:*")
    SampleBuilder.media_url "Clip" None None None None None None
  = ([HttpRequest "HEAD" SampleBuilder.media_url;
      ActionCall "CM" "GetProtocolInfo" []],
     Returned "object.item.videoItem http-get:*:video/mp4:DLNA.ORG_OP=01")
  ∧ construct_play_media_metadata
      (SampleBuilder.serving SampleBuilder.video_with_features)
      SampleBuilder.guess_type SampleBuilder.MIME_TO_UPNP_CLASS_MAPPING
      SampleBuilder.type_by_upnp_class SampleBuilder.to_xml_string
      (SampleBuilder.renderer "http-get:*:video/mp4:*" "")
      SampleBuilder.media_url "Clip" None None None None None None
    = ([HttpRequest "HEAD" SampleBuilder.media_url;
        ActionCall "CM" "GetProtocolInfo" []],
       Returned "object.item.videoItem http-get:*:video/mp4:*").
Proof. split; vm_compute; reflexivity. Qed.

(** * Further properties of the code *)

(** ** Change decoder: any event stream *)

Section DecoderInvariants.

Implicit Types (st : DlnaDmrEventContentHandler) (ev : SaxEvent).

Lemma handle_irrelevant st ev : relevant ev = false → handle st ev = st.
Proof.
  destruct ev as [name attrs|name]; cbn.
  - intros H. apply bool_decide_eq_false in H. unfold startElement.
    destruct (attrs !! "val"); [|reflexivity]. destruct H. eexists. reflexivity.
  - intros H. unfold endElement. rewrite H. reflexivity.
Qed.

Lemma fold_handle_relevant events : ∀ st,
  fold_left handle events st = fold_left handle (List.filter relevant events) st.
Proof.
  induction events as [|ev events IH]; intros st; [reflexivity|].
  cbn [fold_left List.filter]. destruct (relevant ev) eqn:Hev.
  - cbn [fold_left]. apply IH.
  - rewrite handle_irrelevant by exact Hev. apply IH.
Qed.

(** One variable element, whatever the current instance. *)
Lemma handle_element_in ci c e :
  variable_element e →
  fold_left handle (element_events e)
    {| changes := c; _current_instance := ci |}
  = {| changes :=
         <[PyStr.or_else ci "0" :=
             entries_from (default ∅ (c !! PyStr.or_else ci "0")) [e]]> c;
       _current_instance := ci |}.
Proof.
  intros [[v Hv] Hname]. destruct e as [name attrs]; simpl in *.
  unfold startElement, endElement. rewrite Hv.
  assert (String.eqb name "InstanceID" = false) as ->
    by (apply String.eqb_neq; exact Hname).
  cbn [_current_instance changes].
  set (i := PyStr.or_else ci "0").
  unfold entries_from, master_channel, local_name. cbn [fold_left fst snd].
  destruct (c !! i) as [mi|] eqn:Hc; simpl;
    destruct (attrs !! "channel") as [ch|]; simpl;
    try destruct (String.eqb ch "Master"); simpl;
    rewrite ?lookup_insert_eq, ?insert_insert_eq, ?Hc; simpl;
    try reflexivity.
  rewrite insert_id; [reflexivity | exact Hc].
Qed.

Lemma handle_elements_in ci elems : ∀ c,
  Forall variable_element elems → elems ≠ [] →
  fold_left handle (flat_map element_events elems)
    {| changes := c; _current_instance := ci |}
  = {| changes :=
         <[PyStr.or_else ci "0" :=
             entries_from (default ∅ (c !! PyStr.or_else ci "0")) elems]> c;
       _current_instance := ci |}.
Proof.
  induction elems as [|e elems IH]; intros c Hall Hne; [done|].
  inversion Hall as [|? ? He Hrest]; subst.
  change (flat_map element_events (e :: elems))
    with (element_events e ++ flat_map element_events elems)%list.
  rewrite fold_left_app, (handle_element_in ci c e He).
  destruct elems as [|e' elems'].
  - reflexivity.
  - rewrite IH by done.
    rewrite lookup_insert_eq, insert_insert_eq. reflexivity.
Qed.

End DecoderInvariants.

(** X1. Variable elements outside any [InstanceID] scope, and those inside
    a scope whose [InstanceID] has an empty [val], are recorded under
    instance "0": both payloads decode exactly like the payload with the
    scope "0". *)
Theorem parse_defaults_to_instance_0
    (elems : list (string * gmap string string)) :
  Forall variable_element elems →
  _parse_last_change_event (unscoped_payload elems)
  = _parse_last_change_event (single_scope_payload "0" elems)
  ∧ _parse_last_change_event (single_scope_payload "" elems)
    = _parse_last_change_event (single_scope_payload "0" elems).
Proof.
  intros Hall. destruct elems as [|e elems]; [split; reflexivity|].
  rewrite (parse_single_scope_nonempty "0") by done.
  unfold _parse_last_change_event. split.
  - change (unscoped_payload (e :: elems))
      with ([StartElement "Event"
               {[ "xmlns" := "urn:schemas-upnp-org:metadata-1-0/AVT/" ]}]
            ++ flat_map element_events (e :: elems)
            ++ [EndElement "Event"])%list.
    rewrite !fold_left_app.
    assert (fold_left handle
              [StartElement "Event"
                 {[ "xmlns" := "urn:schemas-upnp-org:metadata-1-0/AVT/" ]}]
              handler_init
            = {| changes := ∅; _current_instance := None |}) as ->.
    { cbn [fold_left handle]. unfold startElement.
      rewrite (lookup_singleton_ne "xmlns" "val") by done. reflexivity. }
    rewrite (handle_elements_in None (e :: elems) ∅) by done.
    cbn. rewrite lookup_empty. cbn. apply insert_empty.
  - rewrite single_scope_payload_split, !fold_left_app, handle_scope_open.
    rewrite (handle_elements_in (Some "") (e :: elems) ∅) by done.
    cbn. rewrite lookup_empty. cbn. apply insert_empty.
Qed.

Lemma parse_defaults_to_instance_0_witness :
  _parse_last_change_event
    (unscoped_payload [("Mute", {[ "val" := "1" ]})])
  = {[ "0" := {[ "Mute" := "1" ]} ]}.
Proof.
  rewrite (proj1 (parse_defaults_to_instance_0 [("Mute", {[ "val" := "1" ]})]
                    ltac:(repeat constructor; [eexists; reflexivity | discriminate]))).
  vm_compute. reflexivity.
Defined.

(** X2. Whatever the event stream, an instance key of the decoded changes
    is never empty and is "0" or the [val] of an [InstanceID] element of
    the stream, and every entry under it is the [val] of an element of the
    stream that is not an [InstanceID], has that local name, and has no
    channel or the Master channel. *)
Theorem parse_entries_come_from_elements (events : list SaxEvent)
    (i : string) (m : gmap string string) :
  _parse_last_change_event events !! i = Some m →
  i ≠ ""
  ∧ (i = "0"
     ∨ ∃ attrs, StartElement "InstanceID" attrs ∈ events
                ∧ attrs !! "val" = Some i)
  ∧ ∀ k v, m !! k = Some v →
      ∃ name attrs,
        StartElement name attrs ∈ events
        ∧ name ≠ "InstanceID" ∧ local_name name = k
        ∧ attrs !! "val" = Some v ∧ master_channel attrs = true.
Proof.
  unfold _parse_last_change_event.
  set (Scope := λ (seen : list SaxEvent) (i : string),
         ∃ attrs, StartElement "InstanceID" attrs ∈ seen ∧ attrs !! "val" = Some i).
  set (Entry := λ (seen : list SaxEvent) (k v : string),
         ∃ name attrs,
           StartElement name attrs ∈ seen
           ∧ name ≠ "InstanceID" ∧ local_name name = k
           ∧ attrs !! "val" = Some v ∧ master_channel attrs = true).
  set (Inv := λ (seen : list SaxEvent) (st : DlnaDmrEventContentHandler),
         (∀ i, _current_instance st = Some i → Scope seen i)
         ∧ ∀ i m, changes st !! i = Some m →
             i ≠ "" ∧ (i = "0" ∨ Scope seen i)
             ∧ ∀ k v, m !! k = Some v → Entry seen k v).
  assert (∀ seen ev i, Scope seen i → Scope (seen ++ [ev])%list i) as Hscope_mono.
  { intros seen ev j (attrs & Hin & Hv). exists attrs. split; [|exact Hv].
    apply elem_of_app. left. exact Hin. }
  assert (∀ seen ev k v, Entry seen k v → Entry (seen ++ [ev])%list k v) as Hentry_mono.
  { intros seen ev k v (name & attrs & Hin & H). exists name, attrs.
    split; [|exact H]. apply elem_of_app. left. exact Hin. }
  assert (∀ seen st ev, Inv seen st → Inv (seen ++ [ev])%list (handle st ev)) as Hstep.
  { intros seen st ev [Hci Hch].
    assert (∀ j mj, changes st !! j = Some mj →
              j ≠ "" ∧ (j = "0" ∨ Scope (seen ++ [ev])%list j)
              ∧ ∀ k v, mj !! k = Some v → Entry (seen ++ [ev])%list k v) as Hold.
    { intros j mj Hj. destruct (Hch j mj Hj) as (Hne & Hsc & Hen).
      split; [exact Hne|]. split.
      - destruct Hsc as [->|Hsc]; [left; reflexivity|right; auto].
      - intros k v Hk. auto. }
    destruct ev as [name attrs|name]; cbn [handle].
    - unfold startElement. destruct (attrs !! "val") as [val|] eqn:Hval.
      2:{ split; [intros j Hj; auto|exact Hold]. }
      destruct (String.eqb name "InstanceID") eqn:Hname.
      { apply String.eqb_eq in Hname. subst name. split; cbn.
        - intros j [= <-]. exists attrs. split; [|exact Hval].
          apply elem_of_app. right. apply list_elem_of_here.
        - exact Hold. }
      apply String.eqb_neq in Hname.
      set (ci := PyStr.or_else (_current_instance st) "0").
      assert (ci ≠ "" ∧ (ci = "0" ∨ Scope (seen ++ [StartElement name attrs])%list ci))
        as [Hci_ne Hci_sc].
      { subst ci. unfold PyStr.or_else.
        destruct (_current_instance st) as [s|] eqn:Hs; [|split; [done|left; done]].
        destruct (PyStr.truthy s) eqn:Ht; [|split; [done|left; done]].
        split; [intros ->; discriminate Ht|]. right. auto. }
      set (changes1 := match changes st !! ci with
                       | Some _ => changes st
                       | None => <[ci := ∅]> (changes st)
                       end).
      assert (∀ j mj, changes1 !! j = Some mj →
                j ≠ "" ∧ (j = "0" ∨ Scope (seen ++ [StartElement name attrs])%list j)
                ∧ ∀ k v, mj !! k = Some v → Entry (seen ++ [StartElement name attrs])%list k v)
        as Hch1.
      { intros j mj Hj. subst changes1.
        destruct (changes st !! ci) eqn:Hc; [exact (Hold j mj Hj)|].
        destruct (decide (ci = j)) as [<-|Hne].
        - rewrite lookup_insert_eq in Hj. injection Hj as <-.
          split; [exact Hci_ne|]. split; [exact Hci_sc|].
          intros k v Hk. rewrite lookup_empty in Hk. discriminate.
        - rewrite lookup_insert_ne in Hj by exact Hne. exact (Hold j mj Hj). }
      destruct (match attrs !! "channel" with
                | Some ch => negb (String.eqb ch "Master")
                | None => false
                end) eqn:Hother; cbn [changes _current_instance].
      { split; [intros j Hj; auto|exact Hch1]. }
      split; [intros j Hj; auto|].
      intros j mj Hj. cbn [changes] in Hj.
      destruct (decide (ci = j)) as [<-|Hne].
      + rewrite lookup_insert_eq in Hj. injection Hj as <-.
        split; [exact Hci_ne|]. split; [exact Hci_sc|].
        intros k v Hk.
        destruct (decide ((if PyStr.contains ":" name
                           then PyStr.after_first ":" name else name) = k))
          as [Hk'|Hk'].
        * rewrite <- Hk', lookup_insert_eq in Hk. injection Hk as <-.
          exists name, attrs. split; [apply elem_of_app; right; apply list_elem_of_here|].
          split; [exact Hname|]. split; [exact Hk'|]. split; [exact Hval|].
          unfold master_channel. destruct (attrs !! "channel") as [ch|]; [|reflexivity].
          apply negb_false_iff in Hother. exact Hother.
        * rewrite lookup_insert_ne in Hk by exact Hk'.
          destruct (changes1 !! ci) as [m0|] eqn:Hm0; cbn in Hk.
          -- destruct (Hch1 ci m0 Hm0) as (_ & _ & Hen). exact (Hen k v Hk).
          -- rewrite lookup_empty in Hk. discriminate.
      + rewrite lookup_insert_ne in Hj by exact Hne. exact (Hch1 j mj Hj).
    - unfold endElement. destruct (String.eqb name "InstanceID"); cbn.
      + split; [intros j [=]|exact Hold].
      + split; [intros j Hj; auto|exact Hold]. }
  assert (Inv events (fold_left handle events handler_init)) as [_ Hfinal].
  { induction events as [|ev events IH] using rev_ind.
    - split; cbn; [intros j [=]|]. intros j mj Hj. rewrite lookup_empty in Hj.
      discriminate.
    - rewrite fold_left_app. cbn [fold_left]. apply Hstep. exact IH. }
  intros Hi. exact (Hfinal i m Hi).
Qed.

Lemma parse_entries_come_from_elements_witness :
  ∃ name attrs,
    StartElement name attrs ∈ SampleEvents.two_instances
    ∧ name ≠ "InstanceID" ∧ local_name name = "TransportState"
    ∧ attrs !! "val" = Some "STOPPED" ∧ master_channel attrs = true.
Proof.
  destruct (parse_entries_come_from_elements SampleEvents.two_instances "5"
              {[ "TransportState" := "STOPPED" ]})
    as (_ & _ & H); [vm_compute; reflexivity|].
  apply (H "TransportState" "STOPPED"). reflexivity.
Defined.

(** X3. The decoder only reacts to the start of elements that carry [val]
    and to the end of [InstanceID] elements: dropping every other event
    from the stream (wrappers, elements without [val], other end tags)
    leaves the decoded changes the same. *)
Theorem parse_ignores_irrelevant_events (events : list SaxEvent) :
  _parse_last_change_event events
  = _parse_last_change_event (List.filter relevant events).
Proof.
  unfold _parse_last_change_event. f_equal. apply fold_handle_relevant.
Qed.

(** ** Dispatch: errors and empty data *)



(** ** State reader: the deprecated state, play modes, commands *)


(** *** Play modes *)

(** X6. The name [async_set_play_mode] sends for a mode reads back as that
    mode: when the device reports it in CurrentPlayMode, [play_mode] gives
    the mode that was set. Without the SetPlayMode action the command
    raises and sends nothing. *)
Theorem play_mode_round_trip (self : DmrDevice) (mode : PlayMode) :
  (_action self "AVT" "SetPlayMode" = None →
   async_set_play_mode self mode
   = ([], Raised (UpnpError "Missing action AVT/SetPlayMode")))
  ∧ (is_Some (_action self "AVT" "SetPlayMode") →
     ∃ name,
       async_set_play_mode self mode
       = ([ActionCall "AVT" "SetPlayMode"
             [("InstanceID", ArgInt 0); ("NewPlayMode", ArgStr name)]],
          Returned tt)
       ∧ ∀ self' state_var,
           _state_variable_AVT self' "CurrentPlayMode" = Some state_var →
           value state_var = Some name →
           play_mode self' = Some mode).
Proof.
  unfold async_set_play_mode. split.
  - intros ->. reflexivity.
  - intros [action ->]. exists (PlayMode_name mode). split; [reflexivity|].
    intros self' state_var Hsv Hval. unfold play_mode. rewrite Hsv, Hval.
    destruct mode; reflexivity.
Qed.

Lemma play_mode_round_trip_witness :
  let renderer :=
    Sample.device
      [("CurrentPlayMode", Sample.string_variable "CurrentPlayMode" (Some "REPEAT_ALL"))]
      [] [("AVT", "SetPlayMode", Sample.no_arguments)] in
  async_set_play_mode renderer REPEAT_ALL
  = ([ActionCall "AVT" "SetPlayMode"
        [("InstanceID", ArgInt 0); ("NewPlayMode", ArgStr "REPEAT_ALL")]],
     Returned tt)
  ∧ play_mode renderer = Some REPEAT_ALL.
Proof.
  intros renderer.
  destruct (play_mode_round_trip renderer REPEAT_ALL) as [_ H].
  destruct H as (name & Hcall & Hread); [eexists; reflexivity|].
  assert (name = "REPEAT_ALL") as ->.
  { vm_compute in Hcall. congruence. }
  split; [exact Hcall|].
  apply (Hread renderer
           (Sample.string_variable "CurrentPlayMode" (Some "REPEAT_ALL")));
    reflexivity.
Defined.



(** *** Transport commands *)

(** X8. A transport command does one thing: it logs, raises, or invokes
    its AVT action once with [InstanceID=0] and its own arguments (Play
    with Speed "1", Seek with the unit and [time_to_str] of the time). The
    action is invoked exactly when the permission check passes and the
    action is exposed; in particular whenever the matching [can_*]
    predicate holds. *)
Theorem command_invokes_action_iff
    (time_to_str : timedelta -> string) (self : DmrDevice) (c : TransportCommand) :
  let r := run_command time_to_str self c in
  let invocation :=
    ActionCall "AVT" (action_name c)
      (("InstanceID", ArgInt 0) :: command_arguments time_to_str c) in
  (_can_transport_action self (permission_name c) = true
   ∧ is_Some (_action self "AVT" (action_name c))
   → r = ([invocation], Returned tt))
  ∧ (List.filter is_action_call (effects r) ≠ []
     ↔ _can_transport_action self (permission_name c) = true
       ∧ is_Some (_action self "AVT" (action_name c)))
  ∧ (length (effects r) ≤ 1)%nat
  ∧ (can_command self c = true → r = ([invocation], Returned tt)).
Proof.
  intros r invocation.
  assert (_can_transport_action self (permission_name c) = true
          ∧ is_Some (_action self "AVT" (action_name c))
          → r = ([invocation], Returned tt)) as Hok.
  { intros [Hcan [action Hact]]. subst r invocation.
    destruct c; cbn [run_command permission_name action_name command_arguments] in *;
      unfold async_pause, async_play, async_stop, async_next, async_previous,
        async_seek_abs_time, async_seek_rel_time;
      rewrite Hcan, Hact; reflexivity. }
  split; [exact Hok|]. split; [|split].
  - split; [|intros H; rewrite (Hok H); discriminate].
    intros Hcalls.
    destruct (_can_transport_action self (permission_name c)) eqn:Hcan.
    + split; [reflexivity|].
      destruct (_action self "AVT" (action_name c)) as [action|] eqn:Hact;
        [eexists; reflexivity|].
      subst r. rewrite (run_command_missing_action time_to_str self c Hcan Hact)
        in Hcalls. destruct Hcalls. reflexivity.
    + subst r.
      destruct (run_command_not_permitted time_to_str self c Hcan) as [msg Hr].
      rewrite Hr in Hcalls. destruct Hcalls. reflexivity.
  - destruct (_can_transport_action self (permission_name c)) eqn:Hcan.
    + destruct (_action self "AVT" (action_name c)) as [action|] eqn:Hact.
      * rewrite Hok by (split; [reflexivity|eexists; reflexivity]). cbn. lia.
      * subst r. rewrite (run_command_missing_action time_to_str self c Hcan Hact).
        cbn. lia.
    + subst r.
      destruct (run_command_not_permitted time_to_str self c Hcan) as [msg ->].
      cbn. lia.
  - intros Hc. apply Hok.
    destruct c; cbn [can_command permission_name action_name] in *;
      unfold can_pause, can_play, can_stop, can_next, can_previous,
        can_seek_abs_time, can_seek_rel_time,
        has_pause, has_play, has_stop, has_next, has_previous,
        has_seek_abs_time, has_seek_rel_time in Hc;
      apply andb_true_iff in Hc as [Hhas Hcan];
      (split; [exact Hcan|]);
      try (apply bool_decide_eq_true in Hhas; exact Hhas);
      apply has_seek_with_mode_spec in Hhas as [Hex _]; exact Hex.
Qed.

Lemma command_invokes_action_iff_witness :
  run_command (λ _, "0:01:30") Sample.seek_only
    (CmdSeekAbsTime (mkTimedelta 0 90 0))
  = ([ActionCall "AVT" "Seek"
        [("InstanceID", ArgInt 0); ("Unit", ArgStr "ABS_TIME");
         ("Target", ArgStr "0:01:30")]], Returned tt).
Proof.
  pose proof (command_invokes_action_iff (λ _, "0:01:30") Sample.seek_only
                (CmdSeekAbsTime (mkTimedelta 0 90 0))) as [H _].
  apply H. split; [reflexivity|eexists; reflexivity].
Defined.

(** *** The published action list is normalised *)

Section Normalised.

Lemma lower_lower_char c : PyStr.lower_char (PyStr.lower_char c) = PyStr.lower_char c.
Proof. destruct c as [[] [] [] [] [] [] [] []]; reflexivity. Qed.

Lemma isspace_lower_char c : PyStr.isspace (PyStr.lower_char c) = PyStr.isspace c.
Proof. destruct c as [[] [] [] [] [] [] [] []]; reflexivity. Qed.

Lemma lower_lower s : PyStr.lower (PyStr.lower s) = PyStr.lower s.
Proof. induction s as [|c s IH]; cbn; [|rewrite lower_lower_char, IH]; reflexivity. Qed.

Lemma lower_lstrip s : PyStr.lower (PyStr.lstrip s) = PyStr.lstrip (PyStr.lower s).
Proof.
  induction s as [|c s IH]; cbn; [reflexivity|].
  rewrite isspace_lower_char. destruct (PyStr.isspace c); [exact IH|reflexivity].
Qed.

Lemma lower_rstrip s : PyStr.lower (PyStr.rstrip s) = PyStr.rstrip (PyStr.lower s).
Proof.
  induction s as [|c s IH]; cbn; [reflexivity|].
  rewrite <- IH, isspace_lower_char.
  destruct (PyStr.rstrip s); cbn; [destruct (PyStr.isspace c)|]; reflexivity.
Qed.

Lemma lower_strip s : PyStr.lower (PyStr.strip s) = PyStr.strip (PyStr.lower s).
Proof. unfold PyStr.strip. rewrite lower_rstrip, lower_lstrip. reflexivity. Qed.

Lemma rstrip_cons c s :
  PyStr.rstrip (String c s)
  = match PyStr.rstrip s with
    | EmptyString => if PyStr.isspace c then EmptyString else String c EmptyString
    | r => String c r
    end.
Proof. reflexivity. Qed.

Lemma rstrip_rstrip s : PyStr.rstrip (PyStr.rstrip s) = PyStr.rstrip s.
Proof.
  induction s as [|c s IH]; [reflexivity|].
  rewrite (rstrip_cons c s).
  destruct (PyStr.rstrip s) as [|c' r] eqn:Hr.
  - destruct (PyStr.isspace c) eqn:Hc; [reflexivity|].
    rewrite rstrip_cons. cbn. rewrite Hc. reflexivity.
  - rewrite rstrip_cons, IH. reflexivity.
Qed.

(** A string that does not start with whitespace keeps its first character
    when stripped on the right. *)
Lemma lstrip_rstrip_lstrip s :
  PyStr.lstrip (PyStr.rstrip (PyStr.lstrip s)) = PyStr.rstrip (PyStr.lstrip s).
Proof.
  induction s as [|c s IH]; cbn; [reflexivity|].
  destruct (PyStr.isspace c) eqn:Hc; [exact IH|].
  rewrite rstrip_cons.
  destruct (PyStr.rstrip s); rewrite ?Hc; cbn [PyStr.lstrip]; rewrite Hc;
    reflexivity.
Qed.

Lemma strip_strip s : PyStr.strip (PyStr.strip s) = PyStr.strip s.
Proof.
  unfold PyStr.strip. rewrite lstrip_rstrip_lstrip. apply rstrip_rstrip.
Qed.

(** Every entry of the current-actions list is lower-case and stripped. *)
Lemma current_transport_actions_normalised self a :
  a ∈ _current_transport_actions self → PyStr.lower a = a ∧ PyStr.strip a = a.
Proof.
  unfold _current_transport_actions.
  destruct (_state_variable_AVT self "CurrentTransportActions") as [sv|];
    [|intros H; inversion H].
  intros H. apply list_elem_of_In, in_map_iff in H as (e & <- & _).
  split; [rewrite lower_strip, lower_lower|rewrite strip_strip]; reflexivity.
Qed.

End Normalised.

(** X9. Once the device publishes its current actions, the permission
    check only ever accepts a lower-case name without surrounding
    whitespace, because the entries of the list are lower-cased and
    stripped before the comparison; and a published empty list permits no
    action at all. *)
Theorem published_actions_accept_normalised_names_only
    (self : DmrDevice) (action : string) :
  _has_current_transport_actions self = true →
  (PyStr.lower action ≠ action ∨ PyStr.strip action ≠ action →
   _can_transport_action self action = false)
  ∧ (∀ state_var,
       _state_variable_AVT self "CurrentTransportActions" = Some state_var →
       PyStr.or_else (value state_var) "" = "" →
       action ≠ "" → _can_transport_action self action = false).
Proof.
  intros Hpub. unfold _can_transport_action. rewrite Hpub, orb_false_r. split.
  - intros Hnorm.
    destruct (str_in action (_current_transport_actions self)) eqn:Hin;
      [|reflexivity].
    apply str_in_elem, current_transport_actions_normalised in Hin as [Hl Hs].
    destruct Hnorm as [H|H]; destruct (H ltac:(assumption)).
  - intros state_var Hsv Hempty Hne. unfold _current_transport_actions.
    rewrite Hsv, Hempty. cbn. rewrite orb_false_r.
    apply String.eqb_neq. exact Hne.
Qed.

Lemma published_actions_accept_normalised_names_only_witness :
  _can_transport_action Sample.playing "Play" = false
  ∧ _can_transport_action Sample.playing "play" = true.
Proof.
  split; [|reflexivity].
  apply (published_actions_accept_normalised_names_only Sample.playing "Play");
    [reflexivity|]. left. discriminate.
Defined.

(** ** Levels: errors and order *)

Section LevelOrder.

Local Open Scope Q_scope.

Lemma py_int_mono (x y : Q) : x <= y → (py_int x <= py_int y)%Z.
Proof.
  destruct x as [n1 d1], y as [n2 d2]. unfold Qle, py_int. cbn [Qnum Qden].
  intros H.
  rewrite <- (Z.quot_mul_cancel_r n1 (Z.pos d1) (Z.pos d2)) by lia.
  rewrite <- (Z.quot_mul_cancel_r n2 (Z.pos d2) (Z.pos d1)) by lia.
  rewrite (Z.mul_comm (Z.pos d2) (Z.pos d1)).
  apply Z.quot_le_mono; lia.
Qed.

Lemma py_int_of_integer (z : Z) (x : Q) : x == inject_Z z → py_int x = z.
Proof.
  intros H. apply Z.le_antisymm.
  - apply py_int_le. rewrite H. apply Qle_refl.
  - apply py_int_ge. rewrite H. apply Qle_refl.
Qed.

End LevelOrder.



(** X11. Writing is monotone in the level when the lower bound is not
    above the upper one: a higher level never writes a lower value. For
    integer bounds the level 0 writes the lower bound and the level 1 the
    upper bound. *)
Theorem written_level_is_monotone (self : DmrDevice) (var_name : string)
    (action : UpnpAction) (state_variable : UpnpStateVariable Q)
    (kwargs : list (string * PyArg)) (level level' : Q) :
  _action self "RC" ("Set" +:+ var_name) = Some action →
  arguments action !! ("Desired" +:+ var_name) = Some state_variable →
  let min_ := num_or (min_value state_variable) (0 # 1) in
  let max_ := num_or (max_value state_variable) (100 # 1) in
  (min_ <= max_)%Q →
  ∃ desired desired',
    _async_set_level self var_name level kwargs
    = ([ActionCall "RC" ("Set" +:+ var_name)
          (("InstanceID", ArgInt 0)
           :: (kwargs ++ [("Desired" +:+ var_name, ArgInt desired)])%list)],
       Returned tt)
    ∧ _async_set_level self var_name level' kwargs
      = ([ActionCall "RC" ("Set" +:+ var_name)
            (("InstanceID", ArgInt 0)
             :: (kwargs ++ [("Desired" +:+ var_name, ArgInt desired')])%list)],
         Returned tt)
    ∧ ((level <= level')%Q → (desired <= desired')%Z)
    ∧ (∀ lo : Z, (min_ == inject_Z lo)%Q → (level == 0)%Q → desired = lo)
    ∧ (∀ hi : Z, (max_ == inject_Z hi)%Q → (level == 1)%Q → desired = hi).
Proof.
  intros Hact Harg min_ max_ Hb.
  exists (py_int (min_ + level * (max_ - min_))),
         (py_int (min_ + level' * (max_ - min_))).
  unfold _async_set_level. rewrite Hact, Harg. fold min_ max_.
  split; [reflexivity|]. split; [reflexivity|]. split; [|split].
  - intros Hle. apply py_int_mono.
    apply Qplus_le_r. apply Qmult_le_compat_r; [exact Hle|]. lra.
  - intros lo Hlo H0. apply py_int_of_integer. rewrite H0, <- Hlo. ring.
  - intros hi Hhi H1. apply py_int_of_integer. rewrite H1, <- Hhi. ring.
Qed.

Lemma written_level_is_monotone_witness :
  ∃ desired desired',
    async_set_volume_level (SampleLevels.volume_0_200 (50 # 1)) (1 # 4)
    = ([ActionCall "RC" "SetVolume"
          [("InstanceID", ArgInt 0); ("Channel", ArgStr "Master");
           ("DesiredVolume", ArgInt desired)]], Returned tt)
    ∧ async_set_volume_level (SampleLevels.volume_0_200 (50 # 1)) (3 # 4)
      = ([ActionCall "RC" "SetVolume"
            [("InstanceID", ArgInt 0); ("Channel", ArgStr "Master");
             ("DesiredVolume", ArgInt desired')]], Returned tt)
    ∧ (desired <= desired')%Z.
Proof.
  set (volume := Sample.level_variable "Volume" (Some (50 # 1))
                   (Some (0 # 1)) (Some (200 # 1))).
  destruct (written_level_is_monotone (SampleLevels.volume_0_200 (50 # 1))
              "Volume" {| arguments := {[ "DesiredVolume" := volume ]} |} volume
              [("Channel", ArgStr "Master")] (1 # 4) (3 # 4)
              eq_refl eq_refl ltac:(vm_compute; discriminate))
    as (d & d' & H1 & H2 & Hle & _).
  exists d, d'. split; [exact H1|]. split; [exact H2|].
  apply Hle. vm_compute. discriminate.
Defined.

(** ** Metadata cache: what an update touches *)

(** X12. An update of the current-track metadata touches nothing but that
    cache, does not depend on what the cache held, and leaves an item in
    it exactly when the value is neither empty nor the sentinel and the
    first decoded item is a DIDL object: then it is that item. It commutes
    with an update of the transport-URI metadata. *)
Theorem update_current_track_meta_data_spec
    (from_xml_string : string -> list DidlItem)
    (self : DmrDevice) (state_var : UpnpStateVariable string) :
  let self' := _update_current_track_meta_data from_xml_string self state_var in
  self' = set_current_track_meta_data self (_current_track_meta_data self')
  ∧ (∀ previous,
       _update_current_track_meta_data from_xml_string
         (set_current_track_meta_data self previous) state_var = self')
  ∧ (∀ item,
       _current_track_meta_data self' = Some item
       ↔ ∃ xml rest,
           value state_var = Some xml
           ∧ xml ≠ "" ∧ xml ≠ "NOT_IMPLEMENTED"
           ∧ from_xml_string xml = ItemObject item :: rest)
  ∧ (∀ state_var',
       _update_av_transport_uri_metadata from_xml_string self' state_var'
       = _update_current_track_meta_data from_xml_string
           (_update_av_transport_uri_metadata from_xml_string self state_var')
           state_var).
Proof.
  intros self'. subst self'.
  unfold _update_current_track_meta_data, _update_av_transport_uri_metadata.
  split; [|split; [|split]].
  - destruct (value state_var) as [xml|]; [|reflexivity].
    destruct (negb (PyStr.truthy xml) || String.eqb xml "NOT_IMPLEMENTED");
      [reflexivity|].
    destruct (from_xml_string xml) as [|[item|] rest]; reflexivity.
  - intros previous.
    destruct (value state_var) as [xml|]; [|reflexivity].
    destruct (negb (PyStr.truthy xml) || String.eqb xml "NOT_IMPLEMENTED");
      [reflexivity|].
    destruct (from_xml_string xml) as [|[item|] rest]; reflexivity.
  - intros item. destruct (value state_var) as [xml|]; cycle 1.
    { split; [discriminate|]. intros (xml & rest & [=] & _). }
    destruct (negb (PyStr.truthy xml) || String.eqb xml "NOT_IMPLEMENTED") eqn:Hs.
    + split; [discriminate|]. intros (xml' & rest & [= <-] & Hne & Hni & _).
      apply orb_true_iff in Hs as [Hs|Hs].
      * destruct xml; [destruct (Hne eq_refl)|discriminate Hs].
      * apply String.eqb_eq in Hs. destruct (Hni Hs).
    + apply orb_false_iff in Hs as [Ht Hn]. apply String.eqb_neq in Hn.
      assert (xml ≠ "") as Hne by (intros ->; discriminate Ht).
      destruct (from_xml_string xml) as [|[first|] rest] eqn:Hx; cbn.
      * split; [discriminate|]. intros (x & r & [= <-] & _ & _ & H).
        rewrite Hx in H. discriminate.
      * split.
        -- intros [= <-]. exists xml, rest. done.
        -- intros (x & r & [= <-] & _ & _ & H). rewrite Hx in H. congruence.
      * split; [discriminate|]. intros (x & r & [= <-] & _ & _ & H).
        rewrite Hx in H. discriminate.
  - intros state_var'.
    destruct (value state_var) as [xml|]; destruct (value state_var') as [xml'|];
      try destruct (negb (PyStr.truthy xml) || String.eqb xml "NOT_IMPLEMENTED");
      try destruct (negb (PyStr.truthy xml') || String.eqb xml' "NOT_IMPLEMENTED");
      try destruct (from_xml_string xml) as [|[item|] rest];
      try destruct (from_xml_string xml') as [|[item'|] rest'];
      reflexivity.
Qed.

(** ** Event entry point *)

Section OnEvent.

Variable parse : string -> list SaxEvent.
Variable from_xml_string : string -> list DidlItem.









End OnEvent.



(** ** Media descriptor builder: overrides, errors, metadata *)

Section BuilderMore.

Variable async_http_request :
  string -> string -> gmap string string -> HttpResult.
Variable guess_type : string -> option string.
Variable table : list (string * string).
Variable type_by_upnp_class : string -> option DidlType.
Variable to_xml_string : DidlObject -> string.

Lemma entries_for_mime_type_raises mime_type entries :
  effects (entries_for_mime_type mime_type entries) = []
  ∧ ∀ e, outcome (entries_for_mime_type mime_type entries) = Raised e →
         e = IndexError.
Proof.
  induction entries as [|entry rest [IHe IHo]]; [split; [reflexivity|discriminate]|].
  cbn [entries_for_mime_type].
  destruct (PyStr.contains ":" entry); [|split; assumption].
  destruct (PyStr.split ":" entry !! 2%nat) as [m|];
    [|split; [reflexivity|intros e [= <-]; reflexivity]].
  destruct (String.eqb m mime_type); [|split; assumption].
  destruct (entries_for_mime_type mime_type rest) as [t [r|e0]];
    cbn in *; subst t; split; try reflexivity; try discriminate.
  intros e [= <-]. apply IHo. reflexivity.
Qed.

Lemma widen_dlna_features_raises entries : ∀ dlna_features,
  effects (widen_dlna_features entries dlna_features) = []
  ∧ ∀ e, outcome (widen_dlna_features entries dlna_features) = Raised e →
         e = IndexError.
Proof.
  induction entries as [|entry rest IH]; intros f; [split; [reflexivity|discriminate]|].
  cbn [widen_dlna_features].
  destruct (entry !! 3%nat); [apply IH|].
  split; [reflexivity|intros e [= <-]; reflexivity].
Qed.

Lemma bind_inv {A B} (m : Run A) (f : A → Run B) :
  (∃ e, outcome m = Raised e ∧ bind m f = (effects m, Raised e))
  ∨ (∃ a, outcome m = Returned a
          ∧ bind m f = ((effects m ++ effects (f a))%list, outcome (f a))).
Proof.
  destruct m as [t [a|e]]; cbn; [right|left; eexists; split; reflexivity].
  exists a. split; [reflexivity|]. destruct (f a). reflexivity.
Qed.

Lemma catch_all_returns {A} (m : Run A) (d : A) :
  ∃ a, catch_all m d = (effects m, Returned a).
Proof. destruct m as [t [a|e]]; eexists; reflexivity. Qed.

Lemma probe_split self media_url default_mime_type override_mime_type
    override_dlna_features mime_type dlna_features :
  probe async_http_request guess_type self media_url default_mime_type
    override_mime_type override_dlna_features mime_type dlna_features
  = (headers <- catch_all
       (_fetch_headers async_http_request media_url
          {[ "GetContentFeatures.dlna.org" := "1" ]}) None ;;
     probe_after_headers guess_type self media_url default_mime_type
       override_dlna_features
       (headers_mime_type_and_features override_mime_type override_dlna_features
          mime_type dlna_features headers).1
       (headers_mime_type_and_features override_mime_type override_dlna_features
          mime_type dlna_features headers).2).
Proof.
  unfold probe.
  destruct (catch_all_returns
              (_fetch_headers async_http_request media_url
                 {[ "GetContentFeatures.dlna.org" := "1" ]}) None) as [h ->].
  unfold headers_mime_type_and_features, probe_after_headers.
  unfold bind at 1. unfold bind at 3.
  destruct h as [headers|]; [destruct (bool_decide (headers = ∅))|]; reflexivity.
Qed.

Lemma sink_protocol_info_raises self mime_type :
  (∀ e, outcome (_async_get_sink_protocol_info_for_mime_type self mime_type)
        = Raised e → e = IndexError)
  ∧ (has_get_protocol_info self = true →
     effects (_async_get_sink_protocol_info_for_mime_type self mime_type)
     = [ActionCall "CM" "GetProtocolInfo" []]).
Proof.
  unfold _async_get_sink_protocol_info_for_mime_type, async_get_protocol_info,
    has_get_protocol_info.
  destruct (_action self "CM" "GetProtocolInfo") as [action|].
  - cbn [bind emit ret app source].
    match goal with
    | |- context [entries_for_mime_type ?m ?l] =>
        destruct (entries_for_mime_type_raises m l) as [He Ho];
        destruct (entries_for_mime_type m l) as [t1 o1]
    end. cbn in He, Ho. subst t1. cbn. split; [exact Ho|reflexivity].
  - cbn [bind ret app source entries_for_mime_type]. cbn.
    split; discriminate.
Qed.



(** X14. When both the mime type and the feature string are overridden,
    the builder does no I/O at all: no request to the resource, no call to
    the device; its result does not depend on the resource, on the guesser
    or on the device. *)
Theorem overrides_skip_the_probe (self : DmrDevice)
    (media_url media_title : string)
    (default_mime_type default_upnp_class : option string)
    (override_mime_type override_upnp_class override_dlna_features : option string)
    (meta_data : option (gmap string string)) :
  is_Some override_mime_type → is_Some override_dlna_features →
  effects (construct_play_media_metadata async_http_request guess_type table
             type_by_upnp_class to_xml_string self media_url media_title
             default_mime_type default_upnp_class override_mime_type
             override_upnp_class override_dlna_features meta_data) = []
  ∧ ∀ async_http_request' guess_type' self',
      construct_play_media_metadata async_http_request' guess_type' table
        type_by_upnp_class to_xml_string self' media_url media_title
        default_mime_type default_upnp_class override_mime_type
        override_upnp_class override_dlna_features meta_data
      = construct_play_media_metadata async_http_request guess_type table
          type_by_upnp_class to_xml_string self media_url media_title
          default_mime_type default_upnp_class override_mime_type
          override_upnp_class override_dlna_features meta_data.
Proof.
  intros [m ->] [f ->]. unfold construct_play_media_metadata.
  cbn [is_None orb bind ret].
  split; [|reflexivity].
  destruct (negb (opt_truthy override_upnp_class));
    destruct (type_by_upnp_class _); reflexivity.
Qed.


(** X16. Every key of the caller's metadata ends up as an attribute of
    the item with the caller's value, overwriting the builder's own
    [id], [parent_id], [restricted], [resources] and also the title: a
    title in the metadata wins over [media_title]. Without one the title
    is [media_title], or nothing when that is empty. *)
Theorem build_item_metadata_wins (didl_item_type : DidlType)
    (media_url media_title mime_type dlna_features : string)
    (meta_data : gmap string string) :
  let item := build_item didl_item_type media_url media_title mime_type
                dlna_features meta_data in
  didl_type item = didl_item_type
  ∧ (∀ key v, meta_data !! key = Some v →
              attributes item !! key = Some (AttrStr v))
  ∧ (meta_data !! "title" = None →
     attributes item !! "title"
     = Some (if PyStr.truthy media_title then AttrStr media_title else AttrNone))
  ∧ (meta_data !! "id" = None → attributes item !! "id" = Some (AttrStr "0"))
  ∧ (meta_data !! "parent_id" = None →
     attributes item !! "parent_id" = Some (AttrStr "-1"))
  ∧ (meta_data !! "restricted" = None →
     attributes item !! "restricted" = Some (AttrStr "false"))
  ∧ dom (attributes item)
    = dom meta_data ∪ {[ "id"; "parent_id"; "title"; "restricted"; "resources" ]}.
Proof.
  intros item. subst item. unfold build_item. cbn [didl_type attributes].
  split; [reflexivity|]. split; [|split; [|split; [|split; [|split]]]].
  - intros key v Hk. apply lookup_union_Some_l. rewrite lookup_fmap, Hk. reflexivity.
  - intros Hk. rewrite lookup_union_r by (rewrite lookup_fmap, Hk; reflexivity).
    rewrite Hk. rewrite lookup_insert_ne by done. rewrite lookup_insert_ne by done.
    rewrite lookup_insert_eq. destruct (PyStr.truthy media_title); reflexivity.
  - intros Hk. rewrite lookup_union_r by (rewrite lookup_fmap, Hk; reflexivity).
    apply lookup_insert_eq.
  - intros Hk. rewrite lookup_union_r by (rewrite lookup_fmap, Hk; reflexivity).
    rewrite lookup_insert_ne by done. apply lookup_insert_eq.
  - intros Hk. rewrite lookup_union_r by (rewrite lookup_fmap, Hk; reflexivity).
    rewrite !lookup_insert_ne by done. apply lookup_insert_eq.
  - rewrite dom_union_L, dom_fmap_L, !dom_insert_L, dom_singleton_L.
    reflexivity.
Qed.

Lemma build_item_metadata_wins_witness :
  attributes (build_item (DidlClass "object.item.audioItem")
                "http://host/a.mp3" "From the caller" "audio/mpeg" "*"
                {[ "title" := "From the metadata" ]}) !! "title"
  = Some (AttrStr "From the metadata").
Proof.
  apply (build_item_metadata_wins (DidlClass "object.item.audioItem")
           "http://host/a.mp3" "From the caller" "audio/mpeg" "*"
           {[ "title" := "From the metadata" ]}).
  reflexivity.
Defined.

End BuilderMore.

Lemma overrides_skip_the_probe_witness :
  effects (construct_play_media_metadata SampleBuilder.unreachable
             SampleBuilder.guess_type SampleBuilder.MIME_TO_UPNP_CLASS_MAPPING
             SampleBuilder.type_by_upnp_class SampleBuilder.to_xml_string
             (SampleBuilder.renderer "" "") SampleBuilder.media_url "Clip"
             None None (Some "video/mp4") None (Some "DLNA.ORG_OP=01") None)
  = [].
Proof.
  apply (overrides_skip_the_probe SampleBuilder.unreachable
           SampleBuilder.guess_type SampleBuilder.MIME_TO_UPNP_CLASS_MAPPING
           SampleBuilder.type_by_upnp_class SampleBuilder.to_xml_string);
    eexists; reflexivity.
Defined.


(** *** Widening, read off the Source list *)

Section Widening.

Lemma entries_readable mime_type entries :
  Forall readable_entry entries →
  ∃ l, entries_for_mime_type mime_type entries = ([], Returned l)
       ∧ ∀ dlna_features,
           widen_dlna_features l dlna_features
           = ([], Returned (if accepts_any mime_type entries
                            then "*" else dlna_features)).
Proof.
  induction entries as [|entry rest IH]; intros Hall.
  - exists []. split; reflexivity.
  - inversion Hall as [|? ? Hentry Hrest]; subst.
    destruct (IH Hrest) as (l & Hl & Hw).
    cbn [entries_for_mime_type accepts_any existsb].
    fold (accepts_any mime_type rest).
    destruct (PyStr.contains ":" entry) eqn:Hcolon; cbn [andb orb];
      [|exists l; split; [exact Hl|exact Hw]].
    specialize (Hentry Hcolon). unfold entry_fields in *.
    destruct (PyStr.split ":" entry) as [|a [|b [|m [|f tl]]]];
      cbn in Hentry; try lia.
    cbn [lookup list_lookup].
    change ((a :: b :: m :: f :: tl) !! 2%nat) with (Some m).
    destruct (String.eqb m mime_type); cbn [andb orb];
      [|exists l; split; [exact Hl|exact Hw]].
    exists ((a :: b :: m :: f :: tl) :: l). rewrite Hl. split; [reflexivity|].
    intros dlna_features.
    change (widen_dlna_features ((a :: b :: m :: f :: tl) :: l) dlna_features)
      with (widen_dlna_features l
              (if String.eqb f "*" then "*" else dlna_features)).
    rewrite Hw. destruct (String.eqb f "*"); cbn [orb];
      [destruct (accepts_any mime_type rest)|]; reflexivity.
Qed.

Lemma entries_unreadable mime_type entries :
  (∃ entry, entry ∈ entries ∧ PyStr.contains ":" entry = true
            ∧ (length (entry_fields entry) < 3)%nat) →
  entries_for_mime_type mime_type entries = ([], Raised IndexError).
Proof.
  intros Hbad.
  assert (∀ l, outcome (entries_for_mime_type mime_type l) = Raised IndexError →
               entries_for_mime_type mime_type l = ([], Raised IndexError)) as Hraise.
  { intros l H.
    assert (effects (entries_for_mime_type mime_type l) = []) as He.
    { clear. induction l as [|entry rest IH]; [reflexivity|].
      cbn [entries_for_mime_type].
      destruct (PyStr.contains ":" entry); [|exact IH].
      destruct (PyStr.split ":" entry !! 2%nat) as [m|]; [|reflexivity].
      destruct (String.eqb m mime_type); [|exact IH].
      destruct (entries_for_mime_type mime_type rest) as [t [r|e0]];
        cbn in *; subst t; reflexivity. }
    destruct (entries_for_mime_type mime_type l) as [t o]. cbn in *. congruence. }
  apply Hraise.
  induction entries as [|entry rest IH];
    [destruct Hbad as (x & Hx & _); inversion Hx|].
  cbn [entries_for_mime_type].
  destruct Hbad as (bad & Hin & Hcolon & Hlen).
  apply elem_of_cons in Hin as [->|Hin].
  - rewrite Hcolon. unfold entry_fields in Hlen.
    rewrite (lookup_ge_None_2 (PyStr.split ":" entry) 2) by lia. reflexivity.
  - specialize (IH (ex_intro _ bad (conj Hin (conj Hcolon Hlen)))).
    destruct (PyStr.contains ":" entry); [|exact IH].
    destruct (PyStr.split ":" entry !! 2%nat) as [m|]; [|reflexivity].
    destruct (String.eqb m mime_type); [|exact IH].
    destruct (entries_for_mime_type mime_type rest) as [t [r|e0]];
      cbn in IH |- *; congruence.
Qed.

Variable async_http_request :
  string -> string -> gmap string string -> HttpResult.
Variable guess_type : string -> option string.
Variable table : list (string * string).
Variable type_by_upnp_class : string -> option DidlType.
Variable to_xml_string : DidlObject -> string.
Variable self : DmrDevice.
Variables media_url media_title : string.
Variables default_mime_type default_upnp_class : option string.
Variable meta_data : option (gmap string string).

(** The resource answers with a content type and with features other
    than "*", and the device exposes CM/GetProtocolInfo. *)
Variable headers : gmap string string.
Variables content_type content_features : string.
Hypothesis fetched :
  outcome (_fetch_headers async_http_request media_url
             {[ "GetContentFeatures.dlna.org" := "1" ]})
  = Returned (Some headers).
Hypothesis has_content_type : headers !! "Content-Type" = Some content_type.
Hypothesis content_type_not_empty : PyStr.truthy content_type = true.
Hypothesis has_features :
  headers !! "ContentFeatures.dlna.org" = Some content_features.
Hypothesis features_not_any : content_features ≠ "*".
Hypothesis exposes_protocol_info : has_get_protocol_info self = true.

Local Abbreviation construct :=
  (construct_play_media_metadata async_http_request guess_type table
     type_by_upnp_class to_xml_string self media_url media_title
     default_mime_type default_upnp_class None None None meta_data).

Local Abbreviation trace :=
  (effects (_fetch_headers async_http_request media_url
              {[ "GetContentFeatures.dlna.org" := "1" ]})
   ++ [ActionCall "CM" "GetProtocolInfo" []])%list.

Lemma bind_returned {A B} (t : list Effect) (a : A) (f : A → Run B) :
  bind (t, Returned a) f = (let '(t', r) := f a in ((t ++ t')%list, r)).
Proof. reflexivity. Qed.

Lemma probe_after_headers_asks_the_device :
  probe_after_headers guess_type self media_url default_mime_type None
    content_type content_features
  = (r <- (emit (ActionCall "CM" "GetProtocolInfo" []) ;;;
           entries_for_mime_type content_type
             (PyStr.split "," (protocol_info_Source self))) ;;
     f <- widen_dlna_features r content_features ;;
     ret (content_type, f)).
Proof.
  unfold probe_after_headers. rewrite content_type_not_empty, exposes_protocol_info.
  assert (String.eqb content_features "*" = false) as ->
    by (apply String.eqb_neq; exact features_not_any).
  cbn [negb opt_truthy andb].
  unfold _async_get_sink_protocol_info_for_mime_type, async_get_protocol_info.
  pose proof exposes_protocol_info as Hact. unfold has_get_protocol_info in Hact.
  apply bool_decide_eq_true in Hact as [action ->].
  reflexivity.
Qed.

Lemma probe_with_features :
  probe async_http_request guess_type self media_url default_mime_type
    None None "" "*"
  = (headers <- (effects (_fetch_headers async_http_request media_url
                            {[ "GetContentFeatures.dlna.org" := "1" ]}),
                 Returned tt) ;;
     probe_after_headers guess_type self media_url default_mime_type None
       content_type content_features).
Proof.
  rewrite probe_split.
  rewrite (catch_all_fetch_headers async_http_request media_url headers fetched).
  rewrite !bind_returned. unfold headers_mime_type_and_features.
  assert (bool_decide (headers = ∅) = false) as ->.
  { apply bool_decide_eq_false. intros ->.
    rewrite lookup_empty in has_content_type. discriminate. }
  rewrite has_content_type, has_features. reflexivity.
Qed.

(** X17. When the resource announces features other than "*" and every
    entry of the device's Source list is readable, the builder asks the
    device once and goes on with the feature string "*" exactly when some
    Source entry is for the content type and accepts anything; otherwise
    it keeps the announced features. *)
Theorem features_follow_the_source_list :
  Forall readable_entry (PyStr.split "," (protocol_info_Source self)) →
  let dlna_features :=
    if accepts_any content_type (PyStr.split "," (protocol_info_Source self))
    then "*" else content_features in
  let mime_type := PyStr.lower content_type in
  construct
  = (trace,
     match type_by_upnp_class
             (resolved_upnp_class table default_upnp_class mime_type) with
     | Some didl_item_type =>
         Returned (to_xml_string
                     (build_item didl_item_type media_url media_title mime_type
                        dlna_features (default ∅ meta_data)))
     | None => Raised (UpnpError "Unknown DIDL-lite type")
     end).
Proof.
  intros Hall dlna_features mime_type.
  apply (construct_after_probe async_http_request guess_type table
           type_by_upnp_class to_xml_string self media_url media_title
           default_mime_type default_upnp_class meta_data).
  rewrite probe_with_features, probe_after_headers_asks_the_device.
  destruct (entries_readable content_type _ Hall) as (l & Hl & Hw).
  rewrite Hl. cbn [bind emit ret app]. rewrite Hw. reflexivity.
Qed.

(** X18. A Source entry with a colon and fewer than three fields makes the
    builder fail with [IndexError], after it asked the device. *)
Theorem unreadable_source_entry_raises :
  (∃ entry, entry ∈ PyStr.split "," (protocol_info_Source self)
            ∧ PyStr.contains ":" entry = true
            ∧ (length (entry_fields entry) < 3)%nat) →
  construct = (trace, Raised IndexError).
Proof.
  intros Hbad. unfold construct_play_media_metadata.
  cbn [PyStr.or_else is_None orb].
  rewrite probe_with_features, probe_after_headers_asks_the_device.
  rewrite (entries_unreadable content_type _ Hbad). reflexivity.
Qed.

End Widening.

Lemma features_follow_the_source_list_witness :
  outcome (construct_play_media_metadata
             (SampleBuilder.serving SampleBuilder.video_with_features)
             SampleBuilder.guess_type SampleBuilder.MIME_TO_UPNP_CLASS_MAPPING
             SampleBuilder.type_by_upnp_class SampleBuilder.to_xml_string
             (SampleBuilder.renderer
                "http-get:*:audio/mpeg:*,http-get:*:video/mp4:DLNA.ORG_PN=AVC" "")
             SampleBuilder.media_url "Clip" None None None None None None)
  = Returned "object.item.videoItem http-get:*:video/mp4:DLNA.ORG_OP=01".
Proof.
  rewrite (features_follow_the_source_list
             (SampleBuilder.serving SampleBuilder.video_with_features)
             SampleBuilder.guess_type SampleBuilder.MIME_TO_UPNP_CLASS_MAPPING
             SampleBuilder.type_by_upnp_class SampleBuilder.to_xml_string
             (SampleBuilder.renderer
                "http-get:*:audio/mpeg:*,http-get:*:video/mp4:DLNA.ORG_PN=AVC" "")
             SampleBuilder.media_url "Clip" None None None
             SampleBuilder.video_with_features "video/mp4" "DLNA.ORG_OP=01"
             eq_refl eq_refl eq_refl eq_refl ltac:(discriminate) eq_refl).
  - reflexivity.
  - assert (PyStr.split ","
              (protocol_info_Source
                 (SampleBuilder.renderer
                    "http-get:*:audio/mpeg:*,http-get:*:video/mp4:DLNA.ORG_PN=AVC" ""))
            = ["http-get:*:audio/mpeg:*"; "http-get:*:video/mp4:DLNA.ORG_PN=AVC"])
      as -> by (vm_compute; reflexivity).
    constructor; [intros _; vm_compute; lia|].
    constructor; [intros _; vm_compute; lia|]. constructor.
Defined.

Lemma unreadable_source_entry_raises_witness :
  outcome (construct_play_media_metadata
             (SampleBuilder.serving SampleBuilder.video_with_features)
             SampleBuilder.guess_type SampleBuilder.MIME_TO_UPNP_CLASS_MAPPING
             SampleBuilder.type_by_upnp_class SampleBuilder.to_xml_string
             (SampleBuilder.renderer "http-get:*:video/mp4:*,rtsp:" "")
             SampleBuilder.media_url "Clip" None None None None None None)
  = Raised IndexError.
Proof.
  rewrite (unreadable_source_entry_raises
             (SampleBuilder.serving SampleBuilder.video_with_features)
             SampleBuilder.guess_type SampleBuilder.MIME_TO_UPNP_CLASS_MAPPING
             SampleBuilder.type_by_upnp_class SampleBuilder.to_xml_string
             (SampleBuilder.renderer "http-get:*:video/mp4:*,rtsp:" "")
             SampleBuilder.media_url "Clip" None None None
             SampleBuilder.video_with_features "video/mp4" "DLNA.ORG_OP=01"
             eq_refl eq_refl eq_refl eq_refl ltac:(discriminate) eq_refl).
  - reflexivity.
  - exists "rtsp:". split; [|split; [reflexivity|vm_compute; lia]].
    vm_compute. apply list_elem_of_further, list_elem_of_here.
Defined.

(** ** The probe of the resource *)

Section Fetch.

Variable async_http_request :
  string -> string -> gmap string string -> HttpResult.

(** The run of [_fetch_headers], case by case. *)
Lemma fetch_headers_cases (url : string) (headers : gmap string string) :
  _fetch_headers async_http_request url headers
  = match async_http_request "HEAD" url headers with
    | HttpFailed => ([HttpRequest "HEAD" url], Raised HttpError)
    | HttpResponse status h =>
        if success status then ([HttpRequest "HEAD" url], Returned (Some h))
        else
          match async_http_request "GET" url h with
          | HttpFailed =>
              ([HttpRequest "HEAD" url; HttpRequest "GET" url], Raised HttpError)
          | HttpResponse status' h' =>
              ([HttpRequest "HEAD" url; HttpRequest "GET" url],
               Returned (if success status' then Some h' else None))
          end
    end.
Proof.
  unfold _fetch_headers, http_request, success.
  destruct (async_http_request "HEAD" url headers) as [|status h]; [reflexivity|].
  cbn. destruct ((200 <=? status)%Z && (status <? 300)%Z); [reflexivity|].
  cbn. destruct (async_http_request "GET" url h) as [|status' h']; [reflexivity|].
  cbn. destruct ((200 <=? status')%Z && (status' <? 300)%Z); reflexivity.
Qed.

Lemma fetch_headers_effects (url : string) (headers : gmap string string) :
  ∀ ef, ef ∈ effects (_fetch_headers async_http_request url headers) →
        ∃ method, ef = HttpRequest method url.
Proof.
  rewrite fetch_headers_cases. intros ef.
  destruct (async_http_request "HEAD" url headers) as [|status h];
    [|destruct (success status);
      [|destruct (async_http_request "GET" url h) as [|status' h']]];
    cbn; intros Hin; apply list_elem_of_In in Hin; cbn in Hin;
    repeat destruct Hin as [<-|Hin]; try destruct Hin; eexists; reflexivity.
Qed.

End Fetch.

(** X19. [_fetch_headers] asks with HEAD first and with GET only when
    HEAD was answered with a status outside 200..299; a requester failure
    on HEAD is raised without trying GET. The GET is sent with the headers
    of the HEAD response in place of the caller's headers. Headers are
    returned only from a response with a status in 200..299. *)
Theorem fetch_headers_spec
    (async_http_request : string -> string -> gmap string string -> HttpResult)
    (url : string) (headers : gmap string string) :
  let r := _fetch_headers async_http_request url headers in
  (effects r = [HttpRequest "HEAD" url]
   ∨ effects r = [HttpRequest "HEAD" url; HttpRequest "GET" url])
  ∧ (HttpRequest "GET" url ∈ effects r
     ↔ ∃ status h, async_http_request "HEAD" url headers = HttpResponse status h
                   ∧ success status = false)
  ∧ (async_http_request "HEAD" url headers = HttpFailed →
     r = ([HttpRequest "HEAD" url], Raised HttpError))
  ∧ (∀ status h,
       async_http_request "HEAD" url headers = HttpResponse status h →
       success status = false →
       ∀ other : string -> string -> gmap string string -> HttpResult,
         other "HEAD" url headers = HttpResponse status h →
         other "GET" url h = async_http_request "GET" url h →
         _fetch_headers other url headers = r)
  ∧ (∀ h, outcome r = Returned (Some h) →
       ∃ method sent status,
         async_http_request method url sent = HttpResponse status h
         ∧ success status = true).
Proof.
  intros r. subst r. rewrite fetch_headers_cases.
  destruct (async_http_request "HEAD" url headers) as [|status h] eqn:Hhead.
  { cbn. split; [left; reflexivity|]. split; [|split; [done|split; [done|done]]].
    split; [|intros (? & ? & [=] & _)].
    intros Hin. apply list_elem_of_In in Hin as [[=]|[]]. }
  destruct (success status) eqn:Hs.
  { cbn. split; [left; reflexivity|]. split; [|split; [done|split]].
    - split; [|intros (? & ? & [= <- <-] & H); congruence].
      intros Hin. apply list_elem_of_In in Hin as [[=]|[]].
    - intros ? ? [= <- <-] H. congruence.
    - intros h0 [= <-]. exists "HEAD", headers, status. done. }
  assert (∀ o, HttpRequest "GET" url
               ∈ effects ([HttpRequest "HEAD" url; HttpRequest "GET" url], o : Outcome (option (gmap string string)))) as Hget.
  { intros o. cbn. apply list_elem_of_further, list_elem_of_here. }
  split; [|split; [|split; [done|split]]].
  - right. destruct (async_http_request "GET" url h); reflexivity.
  - split; [intros _; exists status, h; done|]. intros _.
    destruct (async_http_request "GET" url h); apply Hget.
  - intros ? ? [= <- <-] _ other Hhead' Hget'.
    rewrite fetch_headers_cases, Hhead', Hs, Hget'. reflexivity.
  - intros h0. destruct (async_http_request "GET" url h) as [|status' h'] eqn:Hg;
      cbn; [discriminate|].
    destruct (success status') eqn:Hs'; [|discriminate].
    intros [= <-]. exists "GET", h, status'. done.
Qed.

Lemma fetch_headers_spec_witness :
  _fetch_headers SampleBuilder.unreachable SampleBuilder.media_url ∅
  = ([HttpRequest "HEAD" SampleBuilder.media_url], Raised HttpError).
Proof.
  apply (fetch_headers_spec SampleBuilder.unreachable SampleBuilder.media_url ∅).
  reflexivity.
Defined.

(** ** Setting the transport URI *)

Section TransportUriProperties.

Variable async_http_request :
  string -> string -> gmap string string -> HttpResult.
Variable guess_type : string -> option string.
Variable table : list (string * string).
Variable type_by_upnp_class : string -> option DidlType.
Variable to_xml_string : DidlObject -> string.
Variable urlparse : string -> ParseResult.
Variable urlunparse : list string -> string.
Variable quote_plus : string -> string.

Lemma probe_after_headers_effects self media_url default_mime_type
    override_dlna_features mime_type dlna_features :
  ∀ ef, ef ∈ effects (probe_after_headers guess_type self media_url
                        default_mime_type override_dlna_features
                        mime_type dlna_features) →
        ef = ActionCall "CM" "GetProtocolInfo" [].
Proof.
  unfold probe_after_headers. cbv zeta.
  match goal with
  | |- context [if ?c then bind _ _ else ret _] => destruct c eqn:Hcond
  end; [|intros ef Hin; inversion Hin].
  apply andb_true_iff in Hcond as [_ Hhas].
  match goal with
  | |- context [bind (_async_get_sink_protocol_info_for_mime_type self ?m) ?f] =>
      destruct (sink_protocol_info_raises self m) as [_ He];
      specialize (He Hhas);
      destruct (bind_inv (_async_get_sink_protocol_info_for_mime_type self m) f)
        as [(e0 & Hr & ->)|(entries & Hr & ->)]
  end.
  - rewrite He. cbn. intros ef Hin. apply list_elem_of_In in Hin as [<-|[]].
    reflexivity.
  - rewrite He. cbn [effects fst].
    match goal with
    | |- context [bind (widen_dlna_features ?l ?f) ?k] =>
        destruct (widen_dlna_features_raises l f) as [He' _];
        destruct (bind_inv (widen_dlna_features l f) k)
          as [(e1 & Hr' & ->)|(f' & Hr' & ->)]
    end; rewrite He'; cbn; intros ef Hin;
      apply list_elem_of_In in Hin as [<-|[]]; reflexivity.
Qed.

Lemma probe_effects self media_url default_mime_type override_mime_type
    override_dlna_features mime_type dlna_features :
  ∀ ef, ef ∈ effects (probe async_http_request guess_type self media_url
                        default_mime_type override_mime_type
                        override_dlna_features mime_type dlna_features) →
        builder_effect media_url ef.
Proof.
  rewrite probe_split.
  match goal with
  | |- context [bind ?m ?f] =>
      destruct (catch_all_returns
                  (_fetch_headers async_http_request media_url
                     {[ "GetContentFeatures.dlna.org" := "1" ]}) None) as [h Hh];
      destruct (bind_inv m f) as [(e0 & Hr & ->)|(h' & Hr & ->)]
  end.
  - rewrite Hh in Hr. discriminate Hr.
  - rewrite Hh. cbn [effects fst]. intros ef Hin.
    apply elem_of_app in Hin as [Hin|Hin].
    + left. exact (fetch_headers_effects _ _ _ ef Hin).
    + right. exact (probe_after_headers_effects _ _ _ _ _ _ ef Hin).
Qed.

Lemma construct_effects self media_url media_title default_mime_type
    default_upnp_class override_mime_type override_upnp_class
    override_dlna_features meta_data :
  ∀ ef, ef ∈ effects (construct_play_media_metadata async_http_request
                        guess_type table type_by_upnp_class to_xml_string
                        self media_url media_title default_mime_type
                        default_upnp_class override_mime_type
                        override_upnp_class override_dlna_features meta_data) →
        builder_effect media_url ef.
Proof.
  unfold construct_play_media_metadata.
  match goal with
  | |- context [bind ?m ?f] =>
      assert (∀ ef, ef ∈ effects m → builder_effect media_url ef) as Hm;
      [|destruct (bind_inv m f) as [(e0 & Hr & ->)|([mt df] & Hr & ->)]]
  end.
  - destruct (is_None override_mime_type || is_None override_dlna_features);
      [apply probe_effects|intros ef Hin; inversion Hin].
  - exact Hm.
  - cbn [effects fst]. intros ef Hin. apply elem_of_app in Hin as [Hin|Hin];
      [exact (Hm ef Hin)|].
    destruct (negb (opt_truthy override_upnp_class)); cbv beta iota zeta in Hin;
      match type of Hin with
      | context [type_by_upnp_class ?c] => destruct (type_by_upnp_class c)
      end; inversion Hin.
Qed.

Lemma queue_meta_data_effects self media_url media_title meta_data :
  ∀ ef, ef ∈ effects (queue_meta_data async_http_request guess_type table
                        type_by_upnp_class to_xml_string self media_url
                        media_title meta_data) →
        builder_effect media_url ef.
Proof.
  destruct meta_data; cbn [queue_meta_data];
    [apply construct_effects|intros ef Hin; inversion Hin|apply construct_effects].
Qed.

Lemma as_next_uri_builder_effects media_url (t : list Effect) :
  (∀ ef, ef ∈ t → builder_effect media_url ef) → map as_next_uri t = t.
Proof.
  induction t as [|ef t IH]; intros H; [reflexivity|].
  cbn [map]. rewrite IH by (intros x Hx; apply H; right; exact Hx).
  f_equal. destruct (H ef ltac:(left)) as [[method ->]| ->]; reflexivity.
Qed.

(** X20. Setting the transport URI: metadata given as a string is sent as
    it is, without any probe of the resource; the URI sent is the escaped
    one. A missing action is noticed only after the metadata was built,
    probe included, and raises [UpnpError]. When both actions are exposed,
    [async_set_next_transport_uri] does the same as
    [async_set_transport_uri] up to the names of the action and of its two
    arguments. *)
Theorem set_transport_uri_spec (self : DmrDevice)
    (media_url media_title : string) (meta_data : MetaDataArg) :
  let escaped := escape_media_url urlparse urlunparse quote_plus media_url in
  let queued :=
    queue_meta_data async_http_request guess_type table type_by_upnp_class
      to_xml_string self escaped media_title meta_data in
  let r := async_set_transport_uri async_http_request guess_type table
             type_by_upnp_class to_xml_string urlparse urlunparse quote_plus
             self media_url media_title meta_data in
  let next := async_set_next_transport_uri async_http_request guess_type table
                type_by_upnp_class to_xml_string urlparse urlunparse quote_plus
                self media_url media_title meta_data in
  (∀ didl, meta_data = MetaStr didl →
           is_Some (_action self "AVT" "SetAVTransportURI") →
     r = ([LogDebug ("Set transport uri: " +:+ media_url);
           ActionCall "AVT" "SetAVTransportURI"
             [("InstanceID", ArgInt 0); ("CurrentURI", ArgStr escaped);
              ("CurrentURIMetaData", ArgStr didl)]], Returned tt))
  ∧ (∀ didl, outcome queued = Returned didl →
             _action self "AVT" "SetAVTransportURI" = None →
     r = (LogDebug ("Set transport uri: " +:+ media_url) :: effects queued,
          Raised (UpnpError "Missing action AVT/SetAVTransportURI")))
  ∧ (∀ e, outcome queued = Raised e →
     r = (LogDebug ("Set transport uri: " +:+ media_url) :: effects queued,
          Raised e))
  ∧ (is_Some (_action self "AVT" "SetAVTransportURI") →
     is_Some (_action self "AVT" "SetNextAVTransportURI") →
     next = (map as_next_uri (effects r), outcome r)).
Proof.
  intros escaped queued r next.
  assert (r = (emit (LogDebug ("Set transport uri: " +:+ media_url)) ;;;
               meta <- queued ;;
               match _action self "AVT" "SetAVTransportURI" with
               | None => raise (UpnpError "Missing action AVT/SetAVTransportURI")
               | Some action =>
                   emit (ActionCall "AVT" "SetAVTransportURI"
                           [("InstanceID", ArgInt 0); ("CurrentURI", ArgStr escaped);
                            ("CurrentURIMetaData", ArgStr meta)])
               end)) as Hr by reflexivity.
  assert (next = (emit (LogDebug ("Set transport uri: " +:+ media_url)) ;;;
                  meta <- queued ;;
                  match _action self "AVT" "SetNextAVTransportURI" with
                  | None => raise (UpnpError "Missing action AVT/SetNextAVTransportURI")
                  | Some action =>
                      emit (ActionCall "AVT" "SetNextAVTransportURI"
                              [("InstanceID", ArgInt 0); ("NextURI", ArgStr escaped);
                               ("NextURIMetaData", ArgStr meta)])
                  end)) as Hnext by reflexivity.
  split.
  { intros didl -> [action Hact]. rewrite Hr. subst queued.
    cbn [queue_meta_data]. rewrite Hact. reflexivity. }
  pose proof (queue_meta_data_effects self escaped media_title meta_data) as Heff.
  fold queued in Heff. clearbody r next queued. subst r next.
  destruct queued as [t [didl|e]]; cbn [outcome effects fst snd] in *.
  - split; [|split].
    + intros didl' [= <-] ->. cbn. rewrite app_nil_r. reflexivity.
    + intros e [=].
    + intros [a1 ->] [a2 ->]. cbn.
      rewrite map_app, (as_next_uri_builder_effects escaped t Heff). reflexivity.
  - split; [|split].
    + intros didl' [=].
    + intros e' [= <-]. reflexivity.
    + intros _ _. cbn.
      rewrite (as_next_uri_builder_effects escaped t Heff). reflexivity.
Qed.

End TransportUriProperties.

Lemma set_transport_uri_spec_witness :
  async_set_transport_uri SampleBuilder.unreachable SampleBuilder.guess_type
    SampleBuilder.MIME_TO_UPNP_CLASS_MAPPING SampleBuilder.type_by_upnp_class
    SampleBuilder.to_xml_string SampleUrl.urlparse SampleUrl.urlunparse
    SampleUrl.quote_plus
    (Sample.device [] [] [("AVT", "SetAVTransportURI", Sample.no_arguments)])
    "http://host/a.mp3?t=a b" "Song" (MetaStr "<DIDL-Lite/>")
  = ([LogDebug "Set transport uri: http://host/a.mp3?t=a b";
      ActionCall "AVT" "SetAVTransportURI"
        [("InstanceID", ArgInt 0); ("CurrentURI", ArgStr "http://host/a.mp3?t=a+b");
         ("CurrentURIMetaData", ArgStr "<DIDL-Lite/>")]], Returned tt).
Proof.
  pose proof (set_transport_uri_spec SampleBuilder.unreachable
                SampleBuilder.guess_type SampleBuilder.MIME_TO_UPNP_CLASS_MAPPING
                SampleBuilder.type_by_upnp_class SampleBuilder.to_xml_string
                SampleUrl.urlparse SampleUrl.urlunparse SampleUrl.quote_plus
                (Sample.device [] [] [("AVT", "SetAVTransportURI", Sample.no_arguments)])
                "http://host/a.mp3?t=a b" "Song" (MetaStr "<DIDL-Lite/>"))
    as [H _].
  rewrite (H "<DIDL-Lite/>" eq_refl ltac:(eexists; reflexivity)).
  reflexivity.
Defined.

(** X21. Besides computing, the builder only sends requests to the media
    URL it was given and asks the device for its protocol info: it invokes
    no other action and writes no log line. *)
Theorem construct_only_probes
    (async_http_request : string -> string -> gmap string string -> HttpResult)
    (guess_type : string -> option string) (table : list (string * string))
    (type_by_upnp_class : string -> option DidlType)
    (to_xml_string : DidlObject -> string) (self : DmrDevice)
    (media_url media_title : string)
    (default_mime_type default_upnp_class : option string)
    (override_mime_type override_upnp_class override_dlna_features : option string)
    (meta_data : option (gmap string string)) (ef : Effect) :
  ef ∈ effects (construct_play_media_metadata async_http_request guess_type
                  table type_by_upnp_class to_xml_string self media_url
                  media_title default_mime_type default_upnp_class
                  override_mime_type override_upnp_class override_dlna_features
                  meta_data) →
  (∃ method, ef = HttpRequest method media_url)
  ∨ ef = ActionCall "CM" "GetProtocolInfo" [].
Proof. apply construct_effects. Qed.

Lemma construct_only_probes_witness :
  let r := construct_play_media_metadata SampleBuilder.unreachable
             SampleBuilder.guess_type SampleBuilder.MIME_TO_UPNP_CLASS_MAPPING
             SampleBuilder.type_by_upnp_class SampleBuilder.to_xml_string
             (SampleBuilder.renderer "" "") SampleBuilder.media_url "Clip"
             None None None None None None in
  HttpRequest "HEAD" SampleBuilder.media_url ∈ effects r
  ∧ ((∃ method, HttpRequest "HEAD" SampleBuilder.media_url
                = HttpRequest method SampleBuilder.media_url)
     ∨ HttpRequest "HEAD" SampleBuilder.media_url
       = ActionCall "CM" "GetProtocolInfo" []).
Proof.
  intros r.
  assert (HttpRequest "HEAD" SampleBuilder.media_url ∈ effects r) as Hin
    by (vm_compute; apply list_elem_of_here).
  split; [exact Hin|].
  exact (construct_only_probes SampleBuilder.unreachable
           SampleBuilder.guess_type SampleBuilder.MIME_TO_UPNP_CLASS_MAPPING
           SampleBuilder.type_by_upnp_class SampleBuilder.to_xml_string
           (SampleBuilder.renderer "" "") SampleBuilder.media_url "Clip"
           None None None None None None _ Hin).
Defined.

(** ** The URIs and the playlist title *)

(** X22. [media_playlist_title] raises exactly when the AVTransportURI or
    the CurrentTrackURI variable is missing, the former error first. With
    both there it is [None] when the two URIs are equal, also when both
    are unset and whatever the cache holds; otherwise it is the title of
    the cached transport-URI metadata. *)
Theorem media_playlist_title_spec (self : DmrDevice) :
  (_state_variable_AVT self "AVTransportURI" = None →
   media_playlist_title self
   = ([], Raised (UpnpError "Missing StateVariable AVT/AVTransportURI")))
  ∧ (is_Some (_state_variable_AVT self "AVTransportURI") →
     _state_variable_AVT self "CurrentTrackURI" = None →
     media_playlist_title self
     = ([], Raised (UpnpError "Missing StateVariable AVT/CurrentTrackURI")))
  ∧ (∀ transport track,
       _state_variable_AVT self "AVTransportURI" = Some transport →
       _state_variable_AVT self "CurrentTrackURI" = Some track →
       media_playlist_title self
       = ([], Returned (if bool_decide (value transport = value track)
                        then AttrNone
                        else _get_av_transport_meta_data self "title")))
  ∧ ((∃ e, outcome (media_playlist_title self) = Raised e)
     ↔ _state_variable_AVT self "AVTransportURI" = None
       ∨ _state_variable_AVT self "CurrentTrackURI" = None).
Proof.
  unfold media_playlist_title, av_transport_uri, current_track_uri.
  destruct (_state_variable_AVT self "AVTransportURI") as [transport|];
    destruct (_state_variable_AVT self "CurrentTrackURI") as [track|]; cbn.
  - repeat split; try done.
    + intros ? ? [= <-] [= <-]. destruct (bool_decide _); reflexivity.
    + destruct (bool_decide _); intros [e [=]].
    + intros [[=]|[=]].
  - repeat split; try done; [intros [e _]; right; reflexivity|].
    intros _. eexists. reflexivity.
  - repeat split; try done; try (intros [? [=]]; fail).
    + intros _. left. reflexivity.
    + intros _. eexists. reflexivity.
  - repeat split; try done; try (intros [? [=]]; fail).
    + intros _. left. reflexivity.
    + intros _. eexists. reflexivity.
Qed.

Lemma media_playlist_title_spec_witness :
  media_playlist_title Sample.playing
  = ([], Raised (UpnpError "Missing StateVariable AVT/AVTransportURI")).
Proof.
  apply (media_playlist_title_spec Sample.playing). reflexivity.
Defined.

(** ** Reconciliation *)

(** X23. What [async_update] polls. Without the AVT service it only pings,
    and only when asked to. With it, it never pings; it polls the transport
    info exactly when not subscribed or asked to; then the position info
    exactly when the transport state, as it is after that poll, is PLAYING
    or PAUSED_PLAYBACK; and the media info, capabilities, settings, mute
    and volume exactly when not subscribed. Subscribed, not asked, and
    neither playing nor paused, it does nothing at all. *)
Theorem async_update_polls
    (poll : string -> list string -> DmrDevice -> DmrDevice)
    (avt_service is_subscribed : bool) (self : DmrDevice) (do_ping : bool) :
  let r := async_update poll avt_service is_subscribed self do_ping in
  let transport_info :=
    PollStateVariables "AVT" ["GetTransportInfo"] [("InstanceID", ArgInt 0)] in
  let position_info :=
    PollStateVariables "AVT" ["GetPositionInfo"] [("InstanceID", ArgInt 0)] in
  let rest :=
    [PollStateVariables "AVT"
       ["GetMediaInfo"; "GetDeviceCapabilities"; "GetTransportSettings"]
       [("InstanceID", ArgInt 0)];
     PollStateVariables "RC" ["GetMute"; "GetVolume"]
       [("InstanceID", ArgInt 0); ("Channel", ArgStr "Master")]] in
  let polled := negb is_subscribed || do_ping in
  let after_transport_info :=
    if polled then poll "AVT" ["GetTransportInfo"] self else self in
  let playing :=
    match transport_state after_transport_info with
    | Some PLAYING | Some PAUSED_PLAYBACK => true
    | _ => false
    end in
  (avt_service = false → r = (if do_ping then [Ping] else [], self))
  ∧ (avt_service = true →
     (fst r) = ((if polled then [transport_info] else [])
            ++ (if playing then [position_info] else [])
            ++ (if is_subscribed then [] else rest))%list
     ∧ (Ping ∉ fst r)
     ∧ (length (fst r) ≤ 4)%nat
     ∧ (is_subscribed = true → do_ping = false → playing = false →
        r = ([], self))).
Proof.
  intros r transport_info position_info rest polled after_transport_info playing.
  split.
  - intros ->. subst r. unfold async_update. destruct do_ping; reflexivity.
  - intros ->.
    assert (fst r = ((if polled then [transport_info] else [])
                   ++ (if playing then [position_info] else [])
                   ++ (if is_subscribed then [] else rest))%list
            ∧ (is_subscribed = true → do_ping = false → playing = false →
               r = ([], self))) as [Hr Hidle].
    { subst r playing after_transport_info polled. unfold async_update.
      unfold _async_poll_state_variables.
      destruct (negb is_subscribed || do_ping) eqn:Hp; cbv beta iota zeta.
      - destruct (transport_state (poll "AVT" ["GetTransportInfo"] self))
          as [[]|];
          destruct is_subscribed; (split; [reflexivity|]);
          intros Hs Hd; try discriminate Hs; subst do_ping;
          cbn in Hp; discriminate Hp.
      - destruct (transport_state self) as [[]|];
          destruct is_subscribed; try (cbn in Hp; discriminate Hp);
          (split; [reflexivity|]); intros _ _ Hpl; try discriminate Hpl;
          reflexivity. }
    split; [exact Hr|]. rewrite Hr. split; [|split; [|exact Hidle]].
    + intros Hin. repeat (apply elem_of_app in Hin as [Hin|Hin]);
        [destruct polled|destruct playing|destruct is_subscribed];
        apply list_elem_of_In in Hin; cbn in Hin;
        repeat destruct Hin as [Hin|Hin]; try discriminate; try destruct Hin.
    + destruct polled, playing, is_subscribed; cbn; lia.
Qed.

Lemma async_update_polls_witness :
  async_update (λ _ _ self, self) true true Sample.playing false
  = ([PollStateVariables "AVT" ["GetPositionInfo"] [("InstanceID", ArgInt 0)]],
     Sample.playing)
  ∧ async_update (λ _ _ self, self) false true Sample.playing true
    = ([Ping], Sample.playing).
Proof.
  split.
  - reflexivity.
  - apply (async_update_polls (λ _ _ self, self) false true Sample.playing true).
    reflexivity.
Defined.

(** ** Waiting for play *)

Section Wait.

Variable observe : nat -> DmrDevice.





End Wait.



(** ** Comma-separated lists *)

Section CommaLists.

Lemma split_without_separator sep s :
  PyStr.contains sep s = false → PyStr.split sep s = [s].
Proof.
  induction s as [|c s IH]; cbn; [reflexivity|].
  intros H. apply orb_false_iff in H as [Hc Hs].
  rewrite Hc, (IH Hs). reflexivity.
Qed.

Lemma split_append_separator sep s t :
  PyStr.contains sep s = false →
  PyStr.split sep (s +:+ String sep t) = s :: PyStr.split sep t.
Proof.
  induction s as [|c s IH].
  - intros _. change ("" +:+ String sep t) with (String sep t).
    cbn. rewrite Ascii.eqb_refl. reflexivity.
  - intros H. cbn in H. apply orb_false_iff in H as [Hc Hs].
    change (String c s +:+ String sep t) with (String c (s +:+ String sep t)).
    cbn [PyStr.split]. rewrite Hc, (IH Hs). reflexivity.
Qed.

Lemma split_join sep l :
  l ≠ [] → Forall (λ s, PyStr.contains sep s = false) l →
  PyStr.split sep (join sep l) = l.
Proof.
  induction l as [|s l IH]; intros Hne Hall; [done|].
  inversion Hall as [|? ? Hs Hl]; subst.
  destruct l as [|s' l]; [apply split_without_separator; exact Hs|].
  change (join sep (s :: s' :: l)) with (s +:+ String sep (join sep (s' :: l))).
  rewrite split_append_separator by exact Hs. rewrite IH by done. reflexivity.
Qed.

Lemma or_else_empty s : PyStr.or_else (Some s) "" = s.
Proof. destruct s; reflexivity. Qed.

End CommaLists.

(** X25. Round trip of the comma-separated variables: when the device
    reports names joined with commas, none of them containing a comma,
    [preset_names] gives back the names, each stripped, and
    [_current_transport_actions] gives them back lower-cased and stripped,
    one entry per name and in the same order. Without the PresetNameList
    variable [preset_names] raises. *)
Theorem comma_separated_round_trip (names : list string) :
  names ≠ [] →
  Forall (λ name, PyStr.contains "," name = false) names →
  (∀ rc_text_variables state_var,
     rc_text_variables !! "PresetNameList" = Some state_var →
     value state_var = Some (join "," names) →
     preset_names rc_text_variables = ([], Returned (map PyStr.strip names)))
  ∧ (∀ self state_var,
       _state_variable_AVT self "CurrentTransportActions" = Some state_var →
       value state_var = Some (join "," names) →
       _current_transport_actions self
       = map (λ a, PyStr.strip (PyStr.lower a)) names)
  ∧ (∀ rc_text_variables,
       rc_text_variables !! "PresetNameList" = None →
       preset_names rc_text_variables
       = ([], Raised (UpnpError "Missing StateVariable RC/PresetNameList"))).
Proof.
  intros Hne Hall. split; [|split].
  - intros vars sv Hsv Hval. unfold preset_names. rewrite Hsv, Hval.
    rewrite split_join by done. reflexivity.
  - intros self sv Hsv Hval. unfold _current_transport_actions.
    rewrite Hsv, Hval, or_else_empty, split_join by done. reflexivity.
  - intros vars Hsv. unfold preset_names. rewrite Hsv. reflexivity.
Qed.

Lemma comma_separated_round_trip_witness :
  preset_names
    {[ "PresetNameList" :=
         Sample.string_variable "PresetNameList"
           (Some "FactoryDefaults, InstallationDefaults") ]}
  = ([], Returned ["FactoryDefaults"; "InstallationDefaults"]).
Proof.
  destruct (comma_separated_round_trip
              ["FactoryDefaults"; " InstallationDefaults"]
              ltac:(discriminate) ltac:(repeat constructor)) as [H _].
  apply (H _ (Sample.string_variable "PresetNameList"
                (Some "FactoryDefaults, InstallationDefaults")));
    reflexivity.
Defined.
